(** * zmanim-rust code generators: the method classifier and the declaration emitter

    A shallow embedding of the two generation scripts of the repository:
    - [a.py], which reads the JSON dump of a Java class and sorts its members
      into three buckets of method names, then prints one bucket as the body
      of [pub enum Calculations];
    - [schema.py], which turns the tables of constants and enumerations into
      Rust declarations.

    Python values read from [json.load] are modelled by the type [json];
    Python exceptions by the error monad [result]; Python sets of strings by
    [gset string]; text by [string] (the bytes of the UTF-8 encoding, whose
    byte order is the code point order Python's [sorted] uses). *)

From Stdlib Require Import Ascii ZArith.
From stdpp Require Import gmap strings list sorting pretty.

Open Scope string_scope.

(** ** Python exceptions and the error monad *)

Inductive exn : Set :=
  | KeyError
  | IndexError
  | TypeError
  | AttributeError
  | ValueError
  | OtherException (name : string).

Inductive result (A : Type) : Type :=
  | Ok (a : A)
  | Raise (e : exn).
Arguments Ok {A} a.
Arguments Raise {A} e.

Definition bind {A B} (r : result A) (k : A -> result B) : result B :=
  match r with
  | Ok a => k a
  | Raise e => Raise e
  end.

Notation "'do' x <- r ; k" := (bind r (fun x => k))
  (at level 10, x name, r at level 100, k at level 200).

Definition succeeds {A} (r : result A) : Prop := exists a, r = Ok a.

(** ** Values loaded from JSON *)

(** [JNum] stands for both Python numbers: the classifier never looks inside
    one.  [JObj] is the loaded [dict], a key bound at most once, read by
    [assoc]. *)
#[warnings="-register-all"] Inductive json : Type :=
  | JNull
  | JBool (b : bool)
  | JNum (n : Z)
  | JStr (s : string)
  | JArr (l : list json)
  | JObj (kvs : list (string * json)).

Fixpoint assoc (k : string) (kvs : list (string * json)) : option json :=
  match kvs with
  | [] => None
  | (k', v) :: kvs' => if String.eqb k k' then Some v else assoc k kvs'
  end.

(** The field [k] of a mapping, when the value is a mapping that has it. *)
Definition field (k : string) (v : json) : option json :=
  match v with
  | JObj kvs => assoc k kvs
  | _ => None
  end.

(** [d.get(k, default)] *)
Definition py_get (d : json) (k : string) (default : json) : result json :=
  match d with
  | JObj kvs => Ok (match assoc k kvs with Some v => v | None => default end)
  | _ => Raise AttributeError
  end.

(** [d[k]] for a string key [k] *)
Definition py_item (d : json) (k : string) : result json :=
  match d with
  | JObj kvs => match assoc k kvs with Some v => Ok v | None => Raise KeyError end
  | _ => Raise TypeError
  end.

(** [d[0]]: the keys of a loaded mapping are strings, so a mapping has no
    key [0]; a string gives its first character. *)
Definition py_item0 (d : json) : result json :=
  match d with
  | JArr [] => Raise IndexError
  | JArr (x :: _) => Ok x
  | JStr EmptyString => Raise IndexError
  | JStr (String c _) => Ok (JStr (String c EmptyString))
  | JObj _ => Raise KeyError
  | _ => Raise TypeError
  end.

Fixpoint chars (s : string) : list json :=
  match s with
  | EmptyString => []
  | String c s' => JStr (String c EmptyString) :: chars s'
  end.

(** [for x in v]: the elements of a list, the keys of a mapping, the
    characters of a string. *)
Definition py_iter (v : json) : result (list json) :=
  match v with
  | JArr l => Ok l
  | JObj kvs => Ok (map (fun kv => JStr (fst kv)) kvs)
  | JStr s => Ok (chars s)
  | _ => Raise TypeError
  end.

(** [len(v)] *)
Definition py_len (v : json) : result nat :=
  match v with
  | JArr l => Ok (length l)
  | JObj kvs => Ok (length kvs)
  | JStr s => Ok (String.length s)
  | _ => Raise TypeError
  end.

(** [v == s] for a string literal [s] *)
Definition py_eq_str (v : json) (s : string) : bool :=
  match v with
  | JStr s' => String.eqb s' s
  | _ => false
  end.

(** [s[n:]] *)
Fixpoint string_drop (n : nat) (s : string) : string :=
  match n, s with
  | O, _ => s
  | S n', String _ s' => string_drop n' s'
  | S _, EmptyString => EmptyString
  end.

(** ** The method classifier ([a.py]) *)

Module Classifier.

Inductive bucket : Set :=
  | ZeroArg     (* zmanim_calc_methods *)
  | ArgTaking   (* zmanim_methods *)
  | Other.      (* other_methods *)

Record buckets : Type := Buckets {
  zmanim_methods : gset string;
  zmanim_calc_methods : gset string;
  other_methods : gset string
}.

Definition empty_buckets : buckets := Buckets ∅ ∅ ∅.

(** [the_set.add(name)] on the set the declaration was routed to *)
Definition add (k : bucket) (name : string) (b : buckets) : buckets :=
  match k with
  | ZeroArg =>
      Buckets (zmanim_methods b) ({[name]} ∪ zmanim_calc_methods b) (other_methods b)
  | ArgTaking =>
      Buckets ({[name]} ∪ zmanim_methods b) (zmanim_calc_methods b) (other_methods b)
  | Other =>
      Buckets (zmanim_methods b) (zmanim_calc_methods b) ({[name]} ∪ other_methods b)
  end.

Definition get_bucket (k : bucket) (b : buckets) : gset string :=
  match k with
  | ZeroArg => zmanim_calc_methods b
  | ArgTaking => zmanim_methods b
  | Other => other_methods b
  end.

(** Lines 23-26: the test for the [public] keyword. *)
Definition is_public_keyword (modifier : json) : result bool :=
  do node <- py_get modifier "node" (JStr "");
  if py_eq_str node "Modifier" then
    do keyword <- py_get modifier "keyword" (JStr "");
    Ok (py_eq_str keyword "public")
  else Ok false.

(** Lines 28-31: the test for the [@Deprecated] marker annotation. *)
Definition is_deprecated_annotation (modifier : json) : result bool :=
  do node <- py_get modifier "node" (JStr "");
  if py_eq_str node "MarkerAnnotation" then
    do typeName <- py_get modifier "typeName" (JObj []);
    do identifier <- py_get typeName "identifier" (JStr "");
    Ok (py_eq_str identifier "Deprecated")
  else Ok false.

(** Lines 22-33: the loop over the modifiers, with its [break].  The result
    is [(is_public, is_deprecated)]. *)
Fixpoint scan_modifiers (ms : list json) (is_public : bool) : result (bool * bool) :=
  match ms with
  | [] => Ok (is_public, false)
  | modifier :: ms' =>
      do public <- is_public_keyword modifier;
      let is_public := if public then true else is_public in
      do deprecated <- is_deprecated_annotation modifier;
      if deprecated then Ok (is_public, true)
      else scan_modifiers ms' is_public
  end.

(** Lines 11-37: the filtering pipeline.  [None] is a [continue]; [Some name]
    is the name the declaration carries on to the routing step.  A name that
    is not a string has no [startswith]. *)
Definition filter_decl (i : json) : result (option string) :=
  do nm <- py_get i "name" (JObj []);
  do name <- py_get nm "identifier" (JStr "");
  match name with
  | JStr name =>
      if String.prefix "set" name then Ok None else
      let name := if String.prefix "get" name then string_drop 3 name else name in
      do node <- py_item i "node";
      if negb (py_eq_str node "MethodDeclaration") then Ok None else
      do mods <- py_get i "modifiers" (JArr []);
      do ms <- py_iter mods;
      do flags <- scan_modifiers ms false;
      let '(is_public, is_deprecated) := flags in
      if negb is_public || is_deprecated then Ok None else
      do rt <- py_get i "returnType2" JNull;
      match rt with
      | JNull => Ok None
      | _ => Ok (Some name)
      end
  | _ => Raise AttributeError
  end.

(** Lines 38-40: the test for a return type [SimpleType] named [Date]. *)
Definition is_date_type (i : json) : result bool :=
  do rt <- py_get i "returnType2" (JObj []);
  do node <- py_get rt "node" (JStr "");
  if py_eq_str node "SimpleType" then
    do rt' <- py_get i "returnType2" (JObj []);
    do nm <- py_get rt' "name" (JObj []);
    do idf <- py_get nm "identifier" (JStr "");
    Ok (py_eq_str idf "Date")
  else Ok false.

(** Lines 38-48: the set a declaration that passed the pipeline goes to. *)
Definition route (i : json) : result bucket :=
  do date <- is_date_type i;
  if date then
    do ps <- py_get i "parameters" (JArr [JNum 1]);
    do n <- py_len ps;
    if Nat.eqb n 0 then Ok ZeroArg else Ok ArgTaking
  else Ok Other.

(** Lines 11-48: one turn of the loop over the member declarations. *)
Definition body (b : buckets) (i : json) : result buckets :=
  do r <- filter_decl i;
  match r with
  | None => Ok b
  | Some name => do k <- route i; Ok (add k name b)
  end.

Fixpoint loop (b : buckets) (decls : list json) : result buckets :=
  match decls with
  | [] => Ok b
  | i :: decls' => do b' <- body b i; loop b' decls'
  end.

(** Line 10: [data["types"][0]["bodyDeclarations"]], iterated. *)
Definition declarations (data : json) : result (list json) :=
  do types <- py_item data "types";
  do t0 <- py_item0 types;
  do decls <- py_item t0 "bodyDeclarations";
  py_iter decls.

Definition classify (data : json) : result buckets :=
  do decls <- declarations data;
  loop empty_buckets decls.

(** Lines 50-52: [sorted(the_set)] *)
Definition sorted (s : gset string) : list string :=
  merge_sort String.le (elements s).

Definition variant_line (i : string) : string := "    " +:+ i +:+ ",".

(** Lines 53-56: the lines printed, for the buckets the loop ended with. *)
Definition printed (b : buckets) : list string :=
  let zmanim_calc_methods := sorted (zmanim_calc_methods b) in
  let zmanim_methods := sorted (zmanim_methods b) in
  let other_methods := sorted (other_methods b) in
  ["pub enum Calculations {"] ++ map variant_line zmanim_methods ++ ["}"].

(** The whole script: the lines on standard output, or the exception that
    ends the run before anything is printed. *)
Definition run (data : json) : result (list string) :=
  do b <- classify data;
  Ok (printed b).

(** *** Predicates on declarations *)

(** The method name the node declares. *)
Definition declared_name (i : json) (n : string) : Prop :=
  exists nm, field "name" i = Some nm /\ field "identifier" nm = Some (JStr n).

(** The accessor prefix taken off (step 2 of the pipeline). *)
Definition strip_get (n : string) : string :=
  if String.prefix "get" n then string_drop 3 n else n.

Definition is_public_modifier (m : json) : Prop :=
  field "node" m = Some (JStr "Modifier") /\
  field "keyword" m = Some (JStr "public").

Definition is_deprecated_marker (m : json) : Prop :=
  field "node" m = Some (JStr "MarkerAnnotation") /\
  exists tn, field "typeName" m = Some tn /\
             field "identifier" tn = Some (JStr "Deprecated").

(** The declaration carries the deprecated marker among its modifiers. *)
Definition carries_deprecated (i : json) : Prop :=
  exists ms m, field "modifiers" i = Some (JArr ms) /\ m ∈ ms /\ is_deprecated_marker m.

(** The return type is a simple type named [Date]. *)
Definition returns_Date (i : json) : Prop :=
  exists rt nm,
    field "returnType2" i = Some rt /\
    field "node" rt = Some (JStr "SimpleType") /\
    field "name" rt = Some nm /\
    field "identifier" nm = Some (JStr "Date").

(** The declaration passes the filtering pipeline (steps 1 to 6) and goes on
    to the routing step under the name [name]. *)
Definition passes_filter (i : json) (name : string) : Prop :=
  filter_decl i = Ok (Some name).

(** The [parameters] field is there and holds nothing. *)
Definition empty_parameters (i : json) : Prop :=
  exists v, field "parameters" i = Some v /\ py_len v = Ok 0.

(** Every field that is there holds the kind of value the parser writes;
    nothing is said of which fields are there. *)
Definition is_obj (v : json) : bool := match v with JObj _ => true | _ => false end.
Definition is_str (v : json) : bool := match v with JStr _ => true | _ => false end.
Definition is_arr (v : json) : bool := match v with JArr _ => true | _ => false end.
Definition is_null (v : json) : bool := match v with JNull => true | _ => false end.

Definition if_present (P : json -> bool) (o : option json) : bool :=
  match o with
  | Some v => P v
  | None => true
  end.

Definition well_typed_name (nm : json) : bool :=
  is_obj nm && if_present is_str (field "identifier" nm).

Definition well_typed_modifier (m : json) : bool :=
  is_obj m && if_present is_obj (field "typeName" m).

Definition well_typed_modifiers (v : json) : bool :=
  match v with
  | JArr ms => forallb well_typed_modifier ms
  | _ => false
  end.

Definition well_typed_type (rt : json) : bool :=
  is_null rt || (is_obj rt && if_present is_obj (field "name" rt)).

Definition well_typed_decl (i : json) : bool :=
  is_obj i &&
  if_present well_typed_name (field "name" i) &&
  if_present well_typed_modifiers (field "modifiers" i) &&
  if_present well_typed_type (field "returnType2" i) &&
  if_present is_arr (field "parameters" i).

(** The turn of the loop on the declaration returns: the pipeline returns
    and, when the declaration passes it, so does the routing step. *)
Definition classifiable (i : json) : Prop :=
  exists r, filter_decl i = Ok r /\ forall name, r = Some name -> succeeds (route i).

(** The number of names held by the three buckets. *)
Definition names_held (b : buckets) : nat :=
  size (zmanim_methods b) + size (zmanim_calc_methods b) + size (other_methods b).

(** *** Readings of the specification that the code does not meet *)

(** The printed enumeration holds the zero-argument bucket: a line for each
    declaration that passes the pipeline, returns [Date] and has an empty
    parameter list, and none for a name routed to another bucket. *)
Definition prints_zero_arg_bucket (data : json) : Prop :=
  forall decls out,
    declarations data = Ok decls -> run data = Ok out ->
    (forall i name,
       i ∈ decls -> passes_filter i name -> returns_Date i ->
       field "parameters" i = Some (JArr []) -> variant_line name ∈ out) /\
    (forall i name,
       i ∈ decls -> passes_filter i name ->
       route i = Ok ArgTaking \/ route i = Ok Other -> variant_line name ∉ out).

(** Every declaration named [getX] that returns [Date] and has no parameters
    has [X] exactly once in the rendered zero-argument bucket. *)
Definition getX_once_in_zero_arg_bucket (data : json) : Prop :=
  forall decls b,
    declarations data = Ok decls -> classify data = Ok b ->
    forall i X,
      i ∈ decls -> declared_name i ("get" +:+ X) -> returns_Date i ->
      field "parameters" i = Some (JArr []) ->
      count_occ String.string_dec (sorted (zmanim_calc_methods b)) X = 1.


(** The field [k] is required of a declaration: a well-typed declaration
    without it, whose name is not a mutator's, ends the run. *)
Definition required_field (k : string) : Prop :=
  forall i b,
    well_typed_decl i = true -> field k i = None ->
    (forall n, declared_name i n -> String.prefix "set" n = false) ->
    ~ succeeds (body b i).

(** *** Sample input *)

Definition jname (s : string) : json := JObj [("identifier", JStr s)].
Definition public_modifier : json :=
  JObj [("node", JStr "Modifier"); ("keyword", JStr "public")].
Definition private_modifier : json :=
  JObj [("node", JStr "Modifier"); ("keyword", JStr "private")].
Definition deprecated_marker : json :=
  JObj [("node", JStr "MarkerAnnotation"); ("typeName", jname "Deprecated")].
Definition simple_type (s : string) : json :=
  JObj [("node", JStr "SimpleType"); ("name", jname s)].
Definition date_param : json :=
  JObj [("node", JStr "SingleVariableDeclaration"); ("type", simple_type "Date")].

Definition method (name : string) (mods : list json) (rt : json) (ps : list json) : json :=
  JObj [("node", JStr "MethodDeclaration"); ("name", jname name);
        ("modifiers", JArr mods); ("returnType2", rt); ("parameters", JArr ps)].

Definition class_of (decls : list json) : json :=
  JObj [("types", JArr [JObj [("node", JStr "TypeDeclaration");
                              ("bodyDeclarations", JArr decls)]])].

Definition getSunrise : json :=
  method "getSunrise" [public_modifier] (simple_type "Date") [].
Definition getSunriseOffset : json :=
  method "getSunriseOffsetByDegrees" [public_modifier] (simple_type "Date") [date_param].

Definition deprecated_getSunrise : json :=
  method "getSunrise" [public_modifier; deprecated_marker] (simple_type "Date") [].

Definition setGeoLocation : json :=
  method "setGeoLocation" [public_modifier] (simple_type "Date") [].


Definition getSunrise_no_modifiers : json :=
  JObj [("node", JStr "MethodDeclaration"); ("name", jname "getSunrise");
        ("returnType2", simple_type "Date"); ("parameters", JArr [])].

Definition getSunrise_no_node : json :=
  JObj [("name", jname "getSunrise"); ("modifiers", JArr [public_modifier]);
        ("returnType2", simple_type "Date"); ("parameters", JArr [])].

Definition double_type : json :=
  JObj [("node", JStr "PrimitiveType"); ("primitiveTypeCode", JStr "double")].

Definition getElevation_null_parameters : json :=
  JObj [("node", JStr "MethodDeclaration"); ("name", jname "getElevation");
        ("modifiers", JArr [public_modifier]); ("returnType2", double_type);
        ("parameters", JNull)].

Definition getSunrise_null_parameters : json :=
  JObj [("node", JStr "MethodDeclaration"); ("name", jname "getSunrise");
        ("modifiers", JArr [public_modifier]); ("returnType2", simple_type "Date");
        ("parameters", JNull)].

Definition getSunrise_with_date : json :=
  method "getSunrise" [public_modifier] (simple_type "Date") [date_param].


Definition deprecated_getSunrise_with_date : json :=
  method "getSunrise" [public_modifier; deprecated_marker] (simple_type "Date") [date_param].

End Classifier.

(** ** The declaration emitter ([schema.py]) *)

Module Emitter.

Definition nl : string := String "010"%char EmptyString.
Definition dquote : string := String "034"%char EmptyString.

(** The classes a [Constant] may name as its [type]: the three the emitter
    knows, and any other class.  Of another class the emitter asks one
    thing, at line 458: whether it compares equal to [datetime].  The test
    is the class's own (its metaclass may define [__eq__]): it comes out
    true or false, or raises. *)
Inductive pytype : Type :=
  | TFloat
  | TInt
  | TDatetime
  | TClass (qualname : string) (equals_datetime : result bool).

Module EnumMember.
Record t : Set := Make { name : string; value : Z }.
End EnumMember.

Module Enum.
Record t : Set := Make { name : string; members : list EnumMember.t }.
End Enum.

Module TransliteratedEnumMember.
Record t : Set := Make { name : string; transliterated_name : string; value : Z }.
End TransliteratedEnumMember.

Module Constant.
Record t : Type := Make { name : string; type : pytype; value : string }.
End Constant.

Definition YEAR_LENGTH_TYPES : list TransliteratedEnumMember.t := [
  TransliteratedEnumMember.Make "חסרים" "Chaserim" 0;
  TransliteratedEnumMember.Make "כסדרן" "Kesidran" 1;
  TransliteratedEnumMember.Make "שלמים" "Shelaimim" 2
].

Definition CONSTANTS : list Constant.t := [
  Constant.Make "JULIAN_DAY_JAN_1_2000" TFloat "2451545.0";
  Constant.Make "JULIAN_DAYS_PER_CENTURY" TFloat "36525.0";
  Constant.Make "EARTH_RADIUS" TFloat "6356.9";
  Constant.Make "GEOMETRIC_ZENITH" TFloat "90.0";
  Constant.Make "CIVIL_ZENITH" TFloat "96.0";
  Constant.Make "NAUTICAL_ZENITH" TFloat "102.0";
  Constant.Make "ASTRONOMICAL_ZENITH" TFloat "108.0";
  Constant.Make "SOLAR_RADIUS" TFloat "16.0 / 60.0";
  Constant.Make "REFRACTION" TFloat "34.0 / 60.0";
  Constant.Make "ZENITH_16_POINT_1" TFloat "90.0 + 16.1";
  Constant.Make "ZENITH_8_POINT_5" TFloat "90.0 + 8.5";
  Constant.Make "ZENITH_3_POINT_7" TFloat "90.0 + 3.7";
  Constant.Make "ZENITH_3_POINT_8" TFloat "90.0 + 3.8";
  Constant.Make "ZENITH_5_POINT_95" TFloat "90.0 + 5.95";
  Constant.Make "ZENITH_7_POINT_083" TFloat "90.0 + 7.0 + (5.0 / 60.0)";
  Constant.Make "ZENITH_10_POINT_2" TFloat "90.0 + 10.2";
  Constant.Make "ZENITH_11_DEGREES" TFloat "90.0 + 11.0";
  Constant.Make "ZENITH_11_POINT_5" TFloat "90.0 + 11.5";
  Constant.Make "ZENITH_13_POINT_24" TFloat "90.0 + 13.24";
  Constant.Make "ZENITH_19_DEGREES" TFloat "90.0 + 19.0";
  Constant.Make "ZENITH_19_POINT_8" TFloat "90.0 + 19.8";
  Constant.Make "ZENITH_26_DEGREES" TFloat "90.0 + 26.0";
  Constant.Make "ZENITH_4_POINT_37" TFloat "90.0 + 4.37";
  Constant.Make "ZENITH_4_POINT_61" TFloat "90.0 + 4.61";
  Constant.Make "ZENITH_4_POINT_8" TFloat "90.0 + 4.8";
  Constant.Make "ZENITH_3_POINT_65" TFloat "90.0 + 3.65";
  Constant.Make "ZENITH_3_POINT_676" TFloat "90.0 + 3.676";
  Constant.Make "ZENITH_5_POINT_88" TFloat "90.0 + 5.88";
  Constant.Make "ZENITH_1_POINT_583" TFloat "90.0 + 1.583";
  Constant.Make "ZENITH_16_POINT_9" TFloat "90.0 + 16.9";
  Constant.Make "ZENITH_6_DEGREES" TFloat "90.0 + 6.0";
  Constant.Make "ZENITH_6_POINT_45" TFloat "90.0 + 6.45";
  Constant.Make "ZENITH_7_POINT_65" TFloat "90.0 + 7.65";
  Constant.Make "ZENITH_7_POINT_67" TFloat "90.0 + 7.67";
  Constant.Make "ZENITH_9_POINT_3" TFloat "90.0 + 9.3";
  Constant.Make "ZENITH_9_POINT_5" TFloat "90.0 + 9.5";
  Constant.Make "ZENITH_9_POINT_75" TFloat "90.0 + 9.75";
  Constant.Make "ZENITH_MINUS_2_POINT_1" TFloat "90.0 - 2.1";
  Constant.Make "ZENITH_MINUS_2_POINT_8" TFloat "90.0 - 2.8";
  Constant.Make "ZENITH_MINUS_3_POINT_05" TFloat "90.0 - 3.05";
  Constant.Make "CHALAKIM_PER_MINUTE" TInt "18";
  Constant.Make "CHALAKIM_PER_HOUR" TInt "1080";
  Constant.Make "CHALAKIM_PER_DAY" TInt "25920";
  Constant.Make "CHALAKIM_PER_MONTH" TInt "765433";
  Constant.Make "CHALAKIM_MOLAD_TOHU" TInt "31524";
  Constant.Make "JEWISH_EPOCH" TInt "-1373429";
  Constant.Make "MINUTE_MILLIS" TInt "60 * 1000";
  Constant.Make "HOUR_MILLIS" TInt "60 * 1000 * 60";
  Constant.Make "BAVLI_DAF_YOMI_START_DAY" TDatetime "-1461369600000";
  Constant.Make "BAVLI_SHEKALIM_CHANGE_DAY" TDatetime "172800000000";
  Constant.Make "YERUSHALMI_DAF_YOMI_START_DAY" TDatetime "318297600000";
  Constant.Make "YERUSHALMI_LENGTH" TInt "1554"
].

Definition ENUMS : list Enum.t := [
  Enum.Make "SOLAR_EVENT" [
    EnumMember.Make "Sunrise" 0;
    EnumMember.Make "Sunset" 1;
    EnumMember.Make "Noon" 2;
    EnumMember.Make "Midnight" 3
  ];
  Enum.Make "FORMULA" [
    EnumMember.Make "Distance" 0;
    EnumMember.Make "InitialBearing" 1;
    EnumMember.Make "FinalBearing" 2
  ]
].

Definition type_to_rust (type : pytype) : result string :=
  match type with
  | TFloat => Ok "f64"
  | TInt => Ok "i64"
  | TDatetime => Ok "DateTime<Utc>"
  | TClass _ equals_datetime =>
      do equal <- equals_datetime;
      if equal then Ok "DateTime<Utc>" else Raise ValueError
  end.

(** The text both commands start their buffer with. *)
Definition prelude : string :=
  nl +:+ "    use chrono::{DateTime, Utc};" +:+ nl +:+
  "    use num_enum::{IntoPrimitive, TryFromPrimitive};" +:+ nl +:+ "    ".

(** Lines 497-501: the loop of [constants] over the table, threading the
    buffer; [type_to_rust] may raise. *)
Fixpoint constants_loop (buffer : string) (table : list Constant.t) : result string :=
  match table with
  | [] => Ok buffer
  | constant :: table' =>
      match Constant.type constant with
      | TDatetime =>
          constants_loop
            (buffer +:+ "pub static _" +:+ Constant.name constant +:+
             ": DateTime<Utc> = DateTime::from_timestamp_millis(" +:+
             Constant.value constant +:+ ").unwrap();" +:+ nl)
            table'
      | type =>
          do ty <- type_to_rust type;
          constants_loop
            (buffer +:+ "pub static _" +:+ Constant.name constant +:+ ": " +:+ ty +:+
             " = " +:+ Constant.value constant +:+ ";" +:+ nl)
            table'
      end
  end.

(** The command [constants] run on a table: the text it writes to the output
    file, or the exception raised before the file is opened. *)
Definition constants_buffer (table : list Constant.t) : result string :=
  constants_loop prelude table.

Definition constants : result string := constants_buffer CONSTANTS.

Definition derive_line : string :=
  "#[derive(Debug, PartialEq, Eq, Clone, Copy, IntoPrimitive, TryFromPrimitive)]" +:+ nl.
Definition repr_line : string := "#[repr(i64)]" +:+ nl.

(** *** The shape of the emitted text *)

(** The pieces of a text, one after the other. *)
Definition join (pieces : list string) : string := foldr String.append "" pieces.

Definition known_type (type : pytype) : Prop :=
  type = TFloat \/ type = TInt \/ type = TDatetime.




(** The static declaration of a constant record: the literal under its
    numeric type, or the construction from epoch milliseconds, unwrapped;
    for a class that compares equal to [datetime] without being it, the
    literal under [DateTime<Utc>]. *)
Definition static_declaration (c : Constant.t) : option string :=
  match Constant.type c with
  | TFloat =>
      Some ("pub static _" +:+ Constant.name c +:+ ": f64 = " +:+
            Constant.value c +:+ ";" +:+ nl)
  | TInt =>
      Some ("pub static _" +:+ Constant.name c +:+ ": i64 = " +:+
            Constant.value c +:+ ";" +:+ nl)
  | TDatetime =>
      Some ("pub static _" +:+ Constant.name c +:+
            ": DateTime<Utc> = DateTime::from_timestamp_millis(" +:+
            Constant.value c +:+ ").unwrap();" +:+ nl)
  | TClass _ (Ok true) =>
      Some ("pub static _" +:+ Constant.name c +:+ ": DateTime<Utc> = " +:+
            Constant.value c +:+ ";" +:+ nl)
  | TClass _ _ => None
  end.

(** One arm of a [match]: [name::key => "text",] *)
Definition match_arm (name key text : string) : string :=
  "    " +:+ name +:+ "::" +:+ key +:+ " => " +:+ dquote +:+ text +:+ dquote +:+
  "," +:+ nl.

(** A lookup function whose body is a [match self] of the given arms and
    nothing else. *)
Definition lookup_fn (fn : string) (arms : list string) : string :=
  "pub fn " +:+ fn +:+ "(&self) -> &str { match self {" +:+ join arms +:+ "}}" +:+ nl.

(** An enumeration declaration: the attribute lines, the type name, the
    variants with their discriminants.  [pretty] writes the decimal numeral
    of the value, as the f-string does for every [int] Python agrees to
    format (one of at most 4300 digits, by default). *)
Definition enum_variant (key : string) (value : Z) : string :=
  "    " +:+ key +:+ " = " +:+ pretty value +:+ "," +:+ nl.

Definition enum_declaration (type_name : string) (variants : list string) : string :=
  derive_line +:+ repr_line +:+ "pub enum " +:+ type_name +:+ " {" +:+ nl +:+
  join variants +:+ "}" +:+ nl.

Definition transliterated_names : list string :=
  ["Parsha"; "JewishHoliday"; "DayOfWeek"; "JewishMonth"; "YearLengthType";
   "BavliTractate"; "YerushalmiTractate"].

Section WithPascalcase.

(** [caseconverter.pascalcase], a library function the emitter imports. *)
Variable pascalcase : string -> string.

(** The identifier of the variant a member becomes. *)
Definition variant_key (member : TransliteratedEnumMember.t) : string :=
  pascalcase (TransliteratedEnumMember.transliterated_name member).

(** Lines 464-484 *)
Definition transliterated_enums_to_rust
    (name : string) (enums : list TransliteratedEnumMember.t) : string :=
  let impl_buffer := "impl " +:+ name +:+ " {" +:+ nl in
  let impl_buffer := impl_buffer +:+ "pub fn en_string(&self) -> &str { match self {" in
  let impl_buffer :=
    fold_left (fun impl_buffer member =>
      impl_buffer +:+ "    " +:+ name +:+ "::" +:+
      pascalcase (TransliteratedEnumMember.transliterated_name member) +:+ " => " +:+
      dquote +:+ TransliteratedEnumMember.transliterated_name member +:+ dquote +:+
      "," +:+ nl) enums impl_buffer in
  let impl_buffer := impl_buffer +:+ "}}" +:+ nl in
  let impl_buffer := impl_buffer +:+ "pub fn he_string(&self) -> &str { match self {" in
  let impl_buffer :=
    fold_left (fun impl_buffer member =>
      impl_buffer +:+ "    " +:+ name +:+ "::" +:+
      pascalcase (TransliteratedEnumMember.transliterated_name member) +:+ " => " +:+
      dquote +:+ TransliteratedEnumMember.name member +:+ dquote +:+
      "," +:+ nl) enums impl_buffer in
  let impl_buffer := impl_buffer +:+ "}}" +:+ nl in
  let impl_buffer := impl_buffer +:+ "}" +:+ nl in
  let buffer := "" in
  let buffer := buffer +:+ derive_line in
  let buffer := buffer +:+ repr_line in
  let buffer := buffer +:+ "pub enum " +:+ name +:+ " {" +:+ nl in
  let buffer :=
    fold_left (fun buffer enum =>
      buffer +:+ "    " +:+
      pascalcase (TransliteratedEnumMember.transliterated_name enum) +:+ " = " +:+
      pretty (TransliteratedEnumMember.value enum) +:+ "," +:+ nl) enums buffer in
  let buffer := buffer +:+ "}" +:+ nl in
  buffer +:+ impl_buffer.

(** Lines 514-520: one turn of the loop of [enums] over the plain enums. *)
Definition plain_enum (buffer : string) (enum : Enum.t) : string :=
  let buffer := buffer +:+ derive_line in
  let buffer := buffer +:+ repr_line in
  let buffer := buffer +:+ "pub enum _" +:+ pascalcase (Enum.name enum) +:+ " {" +:+ nl in
  let buffer :=
    fold_left (fun buffer member =>
      buffer +:+ "    " +:+ pascalcase (EnumMember.name member) +:+ " = " +:+
      pretty (EnumMember.value member) +:+ "," +:+ nl) (Enum.members enum) buffer in
  buffer +:+ "}" +:+ nl.

(** The tables of transliterated members [enums] reads. *)
Record tables : Set := Tables {
  PARSHAS : list TransliteratedEnumMember.t;
  JEWISH_HOLIDAYS : list TransliteratedEnumMember.t;
  DAY_OF_WEEKS : list TransliteratedEnumMember.t;
  HEBREW_MONTHS : list TransliteratedEnumMember.t;
  YEAR_LENGTH_TYPES_ : list TransliteratedEnumMember.t;
  BAVLI_TRACTATES : list TransliteratedEnumMember.t;
  YERUSHALMI_TRACTATES : list TransliteratedEnumMember.t
}.

(** Lines 510-527: the text the command [enums] writes to the output file,
    for the plain enums [ENUMS] and the transliterated tables [T]. *)
Definition enums_buffer (ENUMS : list Enum.t) (T : tables) : string :=
  let buffer := prelude in
  let buffer := fold_left plain_enum ENUMS buffer in
  let buffer := buffer +:+ transliterated_enums_to_rust "Parsha" (PARSHAS T) in
  let buffer := buffer +:+ transliterated_enums_to_rust "JewishHoliday" (JEWISH_HOLIDAYS T) in
  let buffer := buffer +:+ transliterated_enums_to_rust "DayOfWeek" (DAY_OF_WEEKS T) in
  let buffer := buffer +:+ transliterated_enums_to_rust "JewishMonth" (HEBREW_MONTHS T) in
  let buffer := buffer +:+ transliterated_enums_to_rust "YearLengthType" (YEAR_LENGTH_TYPES_ T) in
  let buffer := buffer +:+ transliterated_enums_to_rust "BavliTractate" (BAVLI_TRACTATES T) in
  let buffer := buffer +:+ transliterated_enums_to_rust "YerushalmiTractate" (YERUSHALMI_TRACTATES T) in
  buffer.

End WithPascalcase.

(** *** The commands and the files they write *)

(** How often a character occurs in a text; the lines of a text are counted
    by its line feeds. *)
Fixpoint count_char (c : ascii) (s : string) : nat :=
  match s with
  | EmptyString => 0
  | String c' s' => (if Ascii.eqb c' c then 1 else 0) + count_char c s'
  end.

Definition newlines (s : string) : nat := count_char "010"%char s.

(** What a command acts on: the content of the files, by path; the paths
    [open] refuses to open for writing; the lines printed so far. *)
Record world : Type := World {
  files : gmap string string;
  refused : gset string;
  stdout : list string
}.

(** How a command ends when it does not return: an exception of the
    emitter, or the [OSError] of a refused [open]. *)
Inductive failure : Set :=
  | Exception (e : exn)
  | OSError.

(** [with open(output_file, "w", encoding="utf-8") as f: f.write(buffer)] *)
Definition write_text (output_file buffer : string) (w : world) : world * option failure :=
  if decide (output_file ∈ refused w) then (w, Some OSError)
  else (World (<[output_file := buffer]> (files w)) (refused w) (stdout w), None).

(** Lines 487-503: the command [constants], with the path argument it was
    given, if any. *)
Definition constants_command
    (table : list Constant.t) (output_file : option string) (w : world)
    : world * option failure :=
  let output_file := default "constants.rs" output_file in
  match constants_buffer table with
  | Raise e => (w, Some (Exception e))
  | Ok buffer => write_text output_file buffer w
  end.

Definition leap_year_warning : string :=
  "You must manually make the he_string and en_string methods on JewishMonth factor in the leap year (Adar I during leap year or just plain Adar otherwise)".

Section CommandsWithPascalcase.

Variable pascalcase : string -> string.

(** Lines 506-533: the command [enums]. *)
Definition enums_command
    (ENUMS : list Enum.t) (T : tables) (output_file : option string) (w : world)
    : world * option failure :=
  let output_file := default "enums.rs" output_file in
  let buffer := enums_buffer pascalcase ENUMS T in
  match write_text output_file buffer w with
  | (w', None) => (World (files w') (refused w') (stdout w' ++ [leap_year_warning]), None)
  | (w', Some e) => (w', Some e)
  end.

End CommandsWithPascalcase.

(** *** Sample input *)

(** What [pascalcase] gives on the names of [ENUMS]; other texts are left as
    they are. *)
Definition pascalcase_ENUMS (text : string) : string :=
  if String.eqb text "SOLAR_EVENT" then "SolarEvent"
  else if String.eqb text "FORMULA" then "Formula"
  else text.

Definition sample_tables : tables :=
  Tables [] [] [] [] YEAR_LENGTH_TYPES [] [].

Definition empty_world : world := World ∅ ∅ [].


End Emitter.

(** ** Standard output as text *)

(** What the lines printed make on standard output: [print] ends each with
    a line feed. *)
Definition stdout_text (lines : list string) : string :=
  Emitter.join (map (fun line => line +:+ Emitter.nl) lines).

Import Classifier.
Import Emitter.

(** * Properties of the classifier *)

(** ** The error monad and the Python primitives *)

Lemma bind_Ok {A B} (r : result A) (k : A -> result B) (b : B) :
  bind r k = Ok b -> exists a, r = Ok a /\ k a = Ok b.
Proof. destruct r as [a|e]; simpl; [eauto | discriminate]. Qed.

Lemma py_get_Ok d k default v :
  py_get d k default = Ok v ->
  exists kvs, d = JObj kvs /\
    v = match assoc k kvs with Some x => x | None => default end.
Proof. destruct d; simpl; try discriminate. intros [= <-]. eauto. Qed.

Lemma py_get_field d k default v :
  field k d = Some v -> py_get d k default = Ok v.
Proof. destruct d; simpl; try discriminate. by intros ->. Qed.

Lemma py_get_absent kvs k default :
  field k (JObj kvs) = None -> py_get (JObj kvs) k default = Ok default.
Proof. simpl. by intros ->. Qed.

Lemma py_eq_str_true v s : py_eq_str v s = true <-> v = JStr s.
Proof.
  destruct v; simpl; try (split; [discriminate | congruence]).
  rewrite String.eqb_eq. split; congruence.
Qed.

Lemma field_is_obj k d v : field k d = Some v -> exists kvs, d = JObj kvs.
Proof. destruct d; simpl; try discriminate. eauto. Qed.

(** Peel the next step of a computation in the error monad that is known to
    return. *)
Tactic Notation "step" hyp(H) "as" ident(a) ident(Ha) :=
  apply bind_Ok in H as (a & Ha & H).

(** ** The scan of the modifiers *)

Lemma py_get_not_default d k default v :
  py_get d k default = Ok v -> v <> default -> field k d = Some v.
Proof.
  intros (kvs & -> & ->)%py_get_Ok Hne. simpl.
  destruct (assoc k kvs); [done | by destruct Hne].
Qed.

Lemma is_public_keyword_true m :
  is_public_keyword m = Ok true <-> is_public_modifier m.
Proof.
  unfold is_public_keyword, is_public_modifier. split.
  - intros H. step H as node Hnode.
    destruct (py_eq_str node "Modifier") eqn:Hmod; [|discriminate].
    step H as keyword Hkw. injection H as H.
    apply py_eq_str_true in Hmod as ->. apply py_eq_str_true in H as ->.
    split; by apply (py_get_not_default _ _ (JStr "")).
  - intros [Hnode Hkw].
    rewrite (py_get_field _ _ _ _ Hnode). simpl.
    by rewrite (py_get_field _ _ _ _ Hkw).
Qed.

Lemma is_deprecated_annotation_true m :
  is_deprecated_annotation m = Ok true <-> is_deprecated_marker m.
Proof.
  unfold is_deprecated_annotation, is_deprecated_marker. split.
  - intros H. step H as node Hnode.
    destruct (py_eq_str node "MarkerAnnotation") eqn:Hmark; [|discriminate].
    step H as tn Htn. step H as idf Hidf. injection H as H.
    apply py_eq_str_true in Hmark as ->. apply py_eq_str_true in H as ->.
    apply py_get_not_default in Hnode; [|discriminate].
    apply py_get_not_default in Hidf; [|discriminate].
    apply py_get_not_default in Htn; [|by intros ->].
    eauto.
  - intros (Hnode & tn & Htn & Hid).
    rewrite (py_get_field _ _ _ _ Hnode). simpl.
    rewrite (py_get_field _ _ _ _ Htn). simpl.
    by rewrite (py_get_field _ _ _ _ Hid).
Qed.

Lemma scan_modifiers_deprecated ms p flags :
  scan_modifiers ms p = Ok flags ->
  Exists is_deprecated_marker ms ->
  flags.2 = true.
Proof.
  revert p. induction ms as [|m ms IH]; intros p Hscan Hex.
  - inversion Hex.
  - simpl in Hscan.
    step Hscan as public Hpub. step Hscan as deprecated Hdep.
    destruct deprecated; [by inversion Hscan|].
    apply Exists_cons in Hex as [Hm | Hex]; [|by eapply IH].
    apply is_deprecated_annotation_true in Hm. congruence.
Qed.

Lemma scan_modifiers_public ms p flags :
  scan_modifiers ms p = Ok flags ->
  flags.1 = true ->
  p = true \/ Exists is_public_modifier ms.
Proof.
  revert p. induction ms as [|m ms IH]; intros p Hscan Hflag.
  - injection Hscan as <-. by left.
  - simpl in Hscan.
    step Hscan as public Hpub. step Hscan as deprecated Hdep.
    assert (Hp : (if public then true else p) = true ->
                 p = true \/ Exists is_public_modifier (m :: ms)).
    { destruct public; [|by left]. intros _. right. left.
      by apply is_public_keyword_true. }
    destruct deprecated.
    + injection Hscan as <-. by apply Hp.
    + destruct (IH _ Hscan Hflag) as [Hp' | Hex]; [by apply Hp | right; by right].
Qed.

(** The scan reads a list of modifier nodes: on the keys of a mapping or the
    characters of a string it finds no [public]. *)
Lemma scan_modifiers_of_array mods ms :
  py_iter mods = Ok ms -> scan_modifiers ms false = Ok (true, false) ->
  mods = JArr ms.
Proof.
  destruct mods as [| | |s|l|kvs]; simpl; try discriminate.
  - intros [= <-]. by destruct s.
  - by intros [= <-].
  - intros [= <-]. by destruct kvs.
Qed.

(** ** What passing the pipeline means *)

Lemma filter_decl_Some i name :
  filter_decl i = Ok (Some name) ->
  exists kvs nm s node mods ms rt,
    i = JObj kvs /\
    py_get i "name" (JObj []) = Ok nm /\
    py_get nm "identifier" (JStr "") = Ok (JStr s) /\
    String.prefix "set" s = false /\
    name = strip_get s /\
    py_item i "node" = Ok node /\ node = JStr "MethodDeclaration" /\
    py_get i "modifiers" (JArr []) = Ok mods /\
    py_iter mods = Ok ms /\
    scan_modifiers ms false = Ok (true, false) /\
    py_get i "returnType2" JNull = Ok rt /\ rt <> JNull.
Proof.
  unfold filter_decl. intros H.
  step H as nm Hnm. step H as idf Hidf.
  destruct idf as [| | |s| |]; try discriminate.
  destruct (String.prefix "set" s) eqn:Hset; [discriminate|].
  step H as node Hnode.
  destruct (py_eq_str node "MethodDeclaration") eqn:Hmd; simpl in H; [|discriminate].
  step H as mods Hmods. step H as ms Hms. step H as flags Hflags.
  destruct flags as [[|] [|]]; simpl in H; try discriminate.
  step H as rt Hrt.
  destruct (py_get_Ok _ _ _ _ Hnm) as (kvs & -> & _).
  exists kvs, nm, s, node, mods, ms, rt.
  apply py_eq_str_true in Hmd.
  repeat split; try done.
  - destruct rt; try discriminate; injection H as <-; reflexivity.
  - intros ->. discriminate.
Qed.

Lemma passes_filter_name i name n :
  passes_filter i name -> declared_name i n -> name = strip_get n.
Proof.
  intros (kvs & nm & s & node & mods & ms & rt & -> & Hnm & Hs & _ & -> & _)%filter_decl_Some
         (nm' & Hf & Hid).
  rewrite (py_get_field _ _ _ _ Hf) in Hnm. injection Hnm as <-.
  rewrite (py_get_field _ _ _ _ Hid) in Hs. by injection Hs as <-.
Qed.

Lemma passes_filter_not_deprecated i name :
  passes_filter i name -> ~ carries_deprecated i.
Proof.
  intros (kvs & nm & s & node & mods & ms & rt & -> & _ & _ & _ & _ & _ & _ &
          Hmods & Hiter & Hscan & _)%filter_decl_Some (ms' & m & Hf & Hin & Hm).
  rewrite (py_get_field _ _ _ _ Hf) in Hmods. injection Hmods as <-.
  simpl in Hiter. injection Hiter as <-.
  assert (Hflag : (true, false).2 = true); [|discriminate].
  apply (scan_modifiers_deprecated _ _ _ Hscan), Exists_exists. eauto.
Qed.

(** ** The routing step *)

Lemma is_date_type_spec i d :
  is_date_type i = Ok d -> (d = true <-> returns_Date i).
Proof.
  unfold is_date_type. intros H. split.
  - intros ->.
    step H as rt Hrt. step H as node Hnode.
    destruct (py_eq_str node "SimpleType") eqn:Hst; [|discriminate].
    step H as rt' Hrt'. step H as nm Hnm. step H as idf Hidf.
    injection H as H. apply py_eq_str_true in H as ->. apply py_eq_str_true in Hst as ->.
    rewrite Hrt in Hrt'. injection Hrt' as <-.
    apply py_get_not_default in Hnode; [|discriminate].
    apply py_get_not_default in Hidf; [|discriminate].
    apply py_get_not_default in Hnm; [|by intros ->].
    apply py_get_not_default in Hrt; [|by intros ->].
    by exists rt, nm.
  - intros (rt & nm & Hrt & Hnode & Hnm & Hid).
    rewrite (py_get_field _ _ _ _ Hrt) in H. simpl in H.
    rewrite (py_get_field _ _ _ _ Hnode) in H. simpl in H.
    rewrite (py_get_field _ _ _ _ Hnm) in H. simpl in H.
    rewrite (py_get_field _ _ _ _ Hid) in H. simpl in H. congruence.
Qed.

Lemma route_spec i k :
  route i = Ok k ->
  match k with
  | ZeroArg => returns_Date i /\ empty_parameters i
  | ArgTaking => returns_Date i /\ ~ empty_parameters i
  | Other => ~ returns_Date i
  end.
Proof.
  unfold route. intros H. step H as d Hd.
  apply is_date_type_spec in Hd as Hdate.
  destruct d.
  - assert (HD : returns_Date i) by by apply Hdate.
    step H as ps Hps. step H as n Hn.
    destruct (py_get_Ok _ _ _ _ Hps) as (kvs & -> & Hv).
    destruct (Nat.eqb n 0) eqn:Hn0; injection H as <-; split; try done.
    + apply Nat.eqb_eq in Hn0 as ->.
      exists ps. split; [|done].
      apply (py_get_not_default _ _ _ _ Hps). intros ->. discriminate.
    + intros (v & Hf & Hlen). simpl in Hf. rewrite Hf in Hv. subst v.
      rewrite Hlen in Hn. injection Hn as <-. discriminate.
  - injection H as <-. intros HD. apply Hdate in HD. discriminate.
Qed.

(** The routing step returns a bucket whenever the fields it reads are
    well typed and the return type is not null. *)
Lemma route_total i :
  well_typed_decl i = true -> field "returnType2" i <> Some JNull ->
  succeeds (route i).
Proof.
  unfold well_typed_decl, route, is_date_type, succeeds.
  destruct i as [| | | | |kvs]; try discriminate. simpl.
  rewrite !andb_true_iff. intros (((_ & _) & Hrt) & Hps) Hnull.
  destruct (assoc "returnType2" kvs) as [rt|]; simpl in *; [|eauto].
  destruct rt as [| | | | |rk]; simpl in *; try discriminate; [done|].
  destruct (assoc "node" rk) as [node|]; simpl; [|eauto].
  destruct (py_eq_str node "SimpleType"); simpl; [|eauto].
  assert (Hlen : exists k, (do ps <- py_get (JObj kvs) "parameters" (JArr [JNum 1]);
                            do n <- py_len ps;
                            if Nat.eqb n 0 then Ok ZeroArg else Ok ArgTaking) = Ok k).
  { simpl. destruct (assoc "parameters" kvs) as [ps|]; simpl in *; [|eauto].
    destruct ps; try discriminate; simpl. destruct (Nat.eqb _ 0); eauto. }
  unfold well_typed_type in Hrt. simpl in Hrt.
  destruct (assoc "name" rk) as [nm|]; simpl in *.
  - destruct nm as [| | | | |nk]; try discriminate; simpl.
    match goal with
    | |- context [py_eq_str ?v "Date"] => destruct (py_eq_str v "Date")
    end; simpl; [done | eauto].
  - eauto.
Qed.

(** ** The loop over the declarations *)

Lemma body_Ok b i b' :
  body b i = Ok b' ->
  (filter_decl i = Ok None /\ b' = b) \/
  (exists name k, passes_filter i name /\ route i = Ok k /\ b' = add k name b).
Proof.
  unfold body. intros H. step H as r Hr. destruct r as [name|].
  - step H as k Hk. injection H as <-. right. by exists name, k.
  - injection H as <-. by left.
Qed.

Lemma elem_of_add k' k name b x :
  x ∈ get_bucket k' (add k name b) <-> (k' = k /\ x = name) \/ x ∈ get_bucket k' b.
Proof.
  destruct k, k'; simpl; rewrite ?elem_of_union, ?elem_of_singleton;
    intuition congruence.
Qed.

(** A name is in a bucket at the end of the loop exactly when it was there
    at the start or some declaration of the list was routed there under it. *)
Lemma loop_spec decls : forall b0 b,
  loop b0 decls = Ok b ->
  forall k x,
    x ∈ get_bucket k b <->
    x ∈ get_bucket k b0 \/
    exists i, i ∈ decls /\ passes_filter i x /\ route i = Ok k.
Proof.
  induction decls as [|i decls IH]; intros b0 b H k x; simpl in H.
  - injection H as <-. split; [by left|]. intros [?|(i & Hi & _)]; [done|]. inversion Hi.
  - step H as b1 Hb1. rewrite (IH _ _ H k x).
    apply body_Ok in Hb1 as [[Hnone ->] | (name & k1 & Hpass & Hroute & ->)].
    + split.
      * intros [?|(j & Hj & ?)]; [by left|]. right. exists j. split; [by right|done].
      * intros [?|(j & Hj & Hp & Hr)]; [by left|].
        apply elem_of_cons in Hj as [-> | Hj]; [|right; eauto].
        unfold passes_filter in Hp. congruence.
    + rewrite elem_of_add. split.
      * intros [[[-> ->] | ?] | (j & Hj & ?)]; [right | by left | right].
        -- exists i. split; [by left|done].
        -- exists j. split; [by right|done].
      * intros [?|(j & Hj & Hp & Hr)]; [left; by right|].
        apply elem_of_cons in Hj as [-> | Hj]; [|right; eauto].
        left. left. unfold passes_filter in *. split; congruence.
Qed.

(** When the loop ends normally, every declaration that passed the pipeline
    was routed. *)
Lemma loop_routes decls : forall b0 b i x,
  loop b0 decls = Ok b -> i ∈ decls -> passes_filter i x ->
  exists k, route i = Ok k.
Proof.
  induction decls as [|j decls IH]; intros b0 b i x H Hi Hp; simpl in H.
  - inversion Hi.
  - step H as b1 Hb1.
    apply elem_of_cons in Hi as [-> | Hi]; [|by eapply IH].
    apply body_Ok in Hb1 as [[Hnone _] | (name & k & _ & Hroute & _)]; [|eauto].
    unfold passes_filter in Hp. congruence.
Qed.

Lemma loop_app l1 : forall l2 b,
  loop b (l1 ++ l2) = (do b' <- loop b l1; loop b' l2).
Proof.
  induction l1 as [|i l1 IH]; intros l2 b; simpl; [done|].
  destruct (body b i); simpl; [apply IH | done].
Qed.

Lemma returns_Date_is_date_type i : returns_Date i -> is_date_type i = Ok true.
Proof.
  intros (rt & nm & Hrt & Hnode & Hnm & Hid). unfold is_date_type.
  rewrite (py_get_field _ _ _ _ Hrt). simpl.
  rewrite (py_get_field _ _ _ _ Hnode). simpl.
  rewrite (py_get_field _ _ _ _ Hnm). simpl.
  by rewrite (py_get_field _ _ _ _ Hid).
Qed.

Lemma body_passes b i name k :
  passes_filter i name -> route i = Ok k -> body b i = Ok (add k name b).
Proof. unfold passes_filter, body. by intros -> ->. Qed.

Lemma body_skip_loop i :
  (forall b, body b i = Ok b) ->
  forall l1 b l2, loop b (l1 ++ i :: l2) = loop b (l1 ++ l2).
Proof.
  intros Hskip l1 b l2. rewrite !loop_app.
  destruct (loop b l1) as [b1|e]; simpl; [|done]. by rewrite Hskip.
Qed.

(** ** Single declarations *)

(** C7: a declaration that carries the deprecated marker annotation among
    its modifiers puts its name in no bucket, whatever its visibility, return
    type and arity: one turn of the loop on it leaves the three buckets as
    they were (or ends the run with an exception, on a malformed node), and a
    run that completes ends with the buckets it ends with when the
    declaration is taken out of the input. *)
Theorem C7_deprecated_in_no_bucket (i : json) :
  carries_deprecated i ->
  (forall b, body b i = Ok b \/ exists e, body b i = Raise e) /\
  (forall b0 l1 l2 b, loop b0 (l1 ++ i :: l2) = Ok b -> loop b0 (l1 ++ l2) = Ok b).
Proof.
  intros Hdep.
  assert (Hbody : forall b b', body b i = Ok b' -> b' = b).
  { intros b b' [[_ ->] | (name & k & Hpass & _)]%body_Ok; [done|].
    by destruct (passes_filter_not_deprecated _ _ Hpass). }
  split.
  - intros b. destruct (body b i) as [b'|e] eqn:Hb; [left | right; eauto].
    by rewrite (Hbody _ _ Hb).
  - intros b0 l1 l2 b. rewrite !loop_app.
    destruct (loop b0 l1) as [b1|e]; simpl; [|done].
    destruct (body b1 i) as [b1'|e] eqn:Hb; simpl; [|done].
    by rewrite (Hbody _ _ Hb).
Qed.

Lemma deprecated_getSunrise_carries : carries_deprecated deprecated_getSunrise.
Proof.
  exists [public_modifier; deprecated_marker], deprecated_marker.
  split; [reflexivity|]. split; [apply list_elem_of_In; simpl; tauto|].
  split; [reflexivity|]. exists (jname "Deprecated"). split; reflexivity.
Defined.

Lemma C7_witness :
  carries_deprecated deprecated_getSunrise /\
  ((forall b, body b deprecated_getSunrise = Ok b \/
              exists e, body b deprecated_getSunrise = Raise e) /\
   (forall b0 l1 l2 b,
      loop b0 (l1 ++ deprecated_getSunrise :: l2) = Ok b -> loop b0 (l1 ++ l2) = Ok b)).
Proof.
  split; [exact deprecated_getSunrise_carries|].
  exact (C7_deprecated_in_no_bucket deprecated_getSunrise deprecated_getSunrise_carries).
Defined.

(** C8: a declaration whose name starts with the mutator prefix [set]
    contributes to no bucket: the turn of the loop on it returns the buckets
    unchanged, so the run on an input is the run on that input without the
    declaration, and a suffix [X] is in the output only when another
    declaration puts it there. *)
Theorem C8_set_prefix_contributes_nothing (i : json) (n : string) :
  declared_name i n -> String.prefix "set" n = true ->
  (forall b, body b i = Ok b) /\
  (forall b l1 l2, loop b (l1 ++ i :: l2) = loop b (l1 ++ l2)).
Proof.
  intros (nm & Hnm & Hid) Hset.
  assert (Hskip : forall b, body b i = Ok b).
  { intros b. unfold body, filter_decl.
    rewrite (py_get_field _ _ _ _ Hnm). simpl.
    rewrite (py_get_field _ _ _ _ Hid). simpl.
    by rewrite Hset. }
  split; [done|]. intros b l1 l2. by apply body_skip_loop.
Qed.

Lemma C8_witness :
  declared_name setGeoLocation "setGeoLocation" /\
  String.prefix "set" "setGeoLocation" = true /\
  (forall b, body b setGeoLocation = Ok b) /\
  (forall b l1 l2, loop b (l1 ++ setGeoLocation :: l2) = loop b (l1 ++ l2)).
Proof.
  assert (Hn : declared_name setGeoLocation "setGeoLocation").
  { exists (jname "setGeoLocation"). split; reflexivity. }
  split; [exact Hn|]. split; [reflexivity|].
  exact (C8_set_prefix_contributes_nothing setGeoLocation "setGeoLocation" Hn eq_refl).
Defined.

Lemma body_to_arg_taking b i name :
  passes_filter i name -> route i = Ok ArgTaking ->
  exists b',
    body b i = Ok b' /\ name ∈ zmanim_methods b' /\
    zmanim_methods b' = {[name]} ∪ zmanim_methods b /\
    zmanim_calc_methods b' = zmanim_calc_methods b /\
    other_methods b' = other_methods b.
Proof.
  intros Hpass Hroute. exists (add ArgTaking name b).
  split; [by apply body_passes|]. simpl. split; [|done].
  apply elem_of_union. left. by apply elem_of_singleton.
Qed.


Lemma body_to_other b i name :
  passes_filter i name -> route i = Ok Other ->
  exists b',
    body b i = Ok b' /\ name ∈ other_methods b' /\
    other_methods b' = {[name]} ∪ other_methods b /\
    zmanim_methods b' = zmanim_methods b /\
    zmanim_calc_methods b' = zmanim_calc_methods b.
Proof.
  intros Hpass Hroute. exists (add Other name b).
  split; [by apply body_passes|]. simpl. split; [|done].
  apply elem_of_union. left. by apply elem_of_singleton.
Qed.



Lemma returns_Date_simple_type kvs :
  assoc "returnType2" kvs = Some (simple_type "Date") -> returns_Date (JObj kvs).
Proof.
  intros H. exists (simple_type "Date"), (jname "Date").
  split; [exact H|]. repeat split; reflexivity.
Defined.



(** ** The rendered buckets *)

Lemma elem_of_sorted (s : gset string) x : x ∈ sorted s <-> x ∈ s.
Proof. unfold sorted. by rewrite merge_sort_Permutation, elem_of_elements. Qed.

Lemma sorted_Sorted (s : gset string) : Sorted String.le (sorted s).
Proof. apply (Sorted_merge_sort String.le). Qed.

Lemma sorted_NoDup (s : gset string) : NoDup (sorted s).
Proof. unfold sorted. rewrite merge_sort_Permutation. apply NoDup_elements. Qed.

Lemma sorted_count (s : gset string) x :
  x ∈ s -> count_occ String.string_dec (sorted s) x = 1.
Proof.
  intros Hx. apply NoDup_count_occ'.
  - apply NoDup_ListNoDup, sorted_NoDup.
  - by apply list_elem_of_In, elem_of_sorted.
Qed.

Lemma classify_loop data decls b :
  declarations data = Ok decls -> classify data = Ok b ->
  loop empty_buckets decls = Ok b.
Proof. unfold classify. by intros ->. Qed.

Lemma empty_buckets_empty k x : x ∉ get_bucket k empty_buckets.
Proof. destruct k; simpl; apply not_elem_of_empty. Qed.

(** ** Whole runs *)

(** C1, as the code has it: the enumeration skeleton the classifier prints
    holds exactly the names of the argument-taking bucket.  The lines of a
    completed run are the opening line, one variant line per name, the
    closing line; a name is among them exactly when some declaration passes
    the filtering pipeline under that name, returns a simple type named
    [Date], and has a parameter list that is absent or not empty. *)
Theorem C1_printed_enum_is_arg_taking_bucket
    (data : json) (decls : list json) (out : list string) :
  declarations data = Ok decls -> run data = Ok out ->
  exists names,
    out = (["pub enum Calculations {"] ++ map variant_line names ++ ["}"])%list /\
    forall x,
      x ∈ names <->
      exists i, i ∈ decls /\ passes_filter i x /\ returns_Date i /\ ~ empty_parameters i.
Proof.
  intros Hdecls Hrun. unfold run in Hrun. step Hrun as b Hb. injection Hrun as <-.
  pose proof (classify_loop _ _ _ Hdecls Hb) as Hloop.
  exists (sorted (zmanim_methods b)). split; [reflexivity|].
  intros x. rewrite elem_of_sorted.
  change (zmanim_methods b) with (get_bucket ArgTaking b).
  rewrite (loop_spec _ _ _ Hloop). split.
  - intros [Hx | (i & Hi & Hp & Hr)]; [by destruct (empty_buckets_empty _ _ Hx)|].
    exists i. apply route_spec in Hr as [? ?]. done.
  - intros (i & Hi & Hp & Hd & Hne). right. exists i. split; [done|]. split; [done|].
    destruct (loop_routes _ _ _ _ _ Hloop Hi Hp) as [k Hk].
    pose proof (route_spec _ _ Hk) as Hspec.
    destruct k; [by destruct Hspec | done | done].
Qed.

Lemma C1_witness :
  declarations (class_of [getSunrise; getSunriseOffset]) =
    Ok [getSunrise; getSunriseOffset] /\
  run (class_of [getSunrise; getSunriseOffset]) =
    Ok ["pub enum Calculations {"; "    SunriseOffsetByDegrees,"; "}"] /\
  exists names,
    ["pub enum Calculations {"; "    SunriseOffsetByDegrees,"; "}"] =
      (["pub enum Calculations {"] ++ map variant_line names ++ ["}"])%list /\
    forall x,
      x ∈ names <->
      exists i, i ∈ [getSunrise; getSunriseOffset] /\ passes_filter i x /\
                returns_Date i /\ ~ empty_parameters i.
Proof.
  assert (Hd : declarations (class_of [getSunrise; getSunriseOffset]) =
               Ok [getSunrise; getSunriseOffset]) by reflexivity.
  assert (Hr : run (class_of [getSunrise; getSunriseOffset]) =
               Ok ["pub enum Calculations {"; "    SunriseOffsetByDegrees,"; "}"])
    by (vm_compute; reflexivity).
  split; [exact Hd|]. split; [exact Hr|].
  exact (C1_printed_enum_is_arg_taking_bucket _ _ _ Hd Hr).
Defined.

(** C1, as stated, fails: on a class with the zero-argument [getSunrise] and
    the one-argument [getSunriseOffsetByDegrees], both public and returning
    [Date], the printed enumeration has no line for [Sunrise] and has one for
    [SunriseOffsetByDegrees]. *)
Lemma C1_counterexample :
  ~ prints_zero_arg_bucket (class_of [getSunrise; getSunriseOffset]).
Proof.
  intros H.
  destruct (H [getSunrise; getSunriseOffset]
              ["pub enum Calculations {"; "    SunriseOffsetByDegrees,"; "}"])
    as [Hzero _]; [reflexivity | vm_compute; reflexivity |].
  assert (Hin : variant_line "Sunrise" ∈
                ["pub enum Calculations {"; "    SunriseOffsetByDegrees,"; "}"]).
  { apply (Hzero getSunrise "Sunrise").
    - apply list_elem_of_here.
    - reflexivity.
    - apply returns_Date_simple_type. reflexivity.
    - reflexivity. }
  apply list_elem_of_In in Hin. simpl in Hin.
  destruct Hin as [Hin | [Hin | [Hin | []]]]; discriminate Hin.
Qed.

Lemma strip_get_get X : strip_get ("get" +:+ X) = X.
Proof. unfold strip_get. simpl. by destruct X. Qed.

Lemma route_zero_arg i :
  returns_Date i -> field "parameters" i = Some (JArr []) -> route i = Ok ZeroArg.
Proof.
  intros Hd Hps. unfold route.
  rewrite (returns_Date_is_date_type _ Hd). simpl.
  by rewrite (py_get_field _ _ _ _ Hps).
Qed.

(** C6, as the code has it: each bucket is a set, rendered as a sequence
    that is sorted in the byte order of strings (case-sensitive), has no
    duplicates and holds the names of the set; and in a run that completes,
    for every declaration named [getX] that passes the filtering pipeline
    (a public method declaration without the deprecated marker), returns a
    bare [Date] and has an empty parameter list, [X] occurs exactly once in
    the rendered zero-argument bucket, however many declarations share the
    name. *)
Theorem C6_buckets_sorted_without_duplicates
    (data : json) (decls : list json) (b : buckets) :
  declarations data = Ok decls -> classify data = Ok b ->
  (forall k,
     Sorted String.le (sorted (get_bucket k b)) /\
     NoDup (sorted (get_bucket k b)) /\
     forall x, x ∈ sorted (get_bucket k b) <-> x ∈ get_bucket k b) /\
  (forall i X name,
     i ∈ decls -> declared_name i ("get" +:+ X) -> passes_filter i name ->
     returns_Date i -> field "parameters" i = Some (JArr []) ->
     count_occ String.string_dec (sorted (zmanim_calc_methods b)) X = 1).
Proof.
  intros Hdecls Hb. pose proof (classify_loop _ _ _ Hdecls Hb) as Hloop. split.
  - intros k. split; [apply sorted_Sorted|]. split; [apply sorted_NoDup|].
    intros x. apply elem_of_sorted.
  - intros i X name Hi Hname Hpass Hdate Hps.
    apply sorted_count.
    change (zmanim_calc_methods b) with (get_bucket ZeroArg b).
    rewrite (loop_spec _ _ _ Hloop). right. exists i.
    rewrite (passes_filter_name _ _ _ Hpass Hname), strip_get_get in Hpass.
    split; [done|]. split; [done|]. by apply route_zero_arg.
Qed.

Lemma C6_witness :
  declarations (class_of [getSunrise; getSunriseOffset; getSunrise]) =
    Ok [getSunrise; getSunriseOffset; getSunrise] /\
  classify (class_of [getSunrise; getSunriseOffset; getSunrise]) =
    Ok (Buckets {["SunriseOffsetByDegrees"]} {["Sunrise"]} ∅) /\
  count_occ String.string_dec (sorted {["Sunrise"]}) "Sunrise" = 1.
Proof.
  assert (Hd : declarations (class_of [getSunrise; getSunriseOffset; getSunrise]) =
               Ok [getSunrise; getSunriseOffset; getSunrise]) by reflexivity.
  assert (Hb : classify (class_of [getSunrise; getSunriseOffset; getSunrise]) =
               Ok (Buckets {["SunriseOffsetByDegrees"]} {["Sunrise"]} ∅))
    by (vm_compute; reflexivity).
  split; [exact Hd|]. split; [exact Hb|].
  refine (proj2 (C6_buckets_sorted_without_duplicates _ _ _ Hd Hb)
            getSunrise "Sunrise" "Sunrise" _ _ _ _ _).
  - apply list_elem_of_here.
  - exists (jname "getSunrise"). split; reflexivity.
  - reflexivity.
  - apply returns_Date_simple_type. reflexivity.
  - reflexivity.
Defined.

(** C6, as stated, fails: [getSunrise] with the modifiers [public] and
    [@Deprecated], returning [Date] with no parameters, is named [getX],
    returns a bare [Date] and has zero parameters, and [Sunrise] is not in
    the zero-argument bucket. *)
Lemma C6_counterexample :
  ~ getX_once_in_zero_arg_bucket (class_of [deprecated_getSunrise]).
Proof.
  intros H.
  specialize (H [deprecated_getSunrise] empty_buckets).
  specialize (H eq_refl).
  assert (Hb : classify (class_of [deprecated_getSunrise]) = Ok empty_buckets)
    by (vm_compute; reflexivity).
  specialize (H Hb deprecated_getSunrise "Sunrise").
  assert (Hcount : count_occ String.string_dec (sorted (zmanim_calc_methods empty_buckets))
                     "Sunrise" = 1).
  { apply H.
    - apply list_elem_of_here.
    - exists (jname "getSunrise"). split; reflexivity.
    - apply returns_Date_simple_type. reflexivity.
    - reflexivity. }
  vm_compute in Hcount. discriminate Hcount.
Qed.

(** ** Absent fields *)

Ltac case_eq_str :=
  match goal with
  | |- context [py_eq_str ?v ?s] => destruct (py_eq_str v s) eqn:?
  end.

Lemma modifier_tests_total m :
  well_typed_modifier m = true ->
  succeeds (is_public_keyword m) /\ succeeds (is_deprecated_annotation m).
Proof.
  unfold well_typed_modifier, is_public_keyword, is_deprecated_annotation, succeeds.
  rewrite andb_true_iff. intros [Hobj Htn].
  destruct m as [| | | | |mk]; try discriminate. simpl in *. split.
  - case_eq_str; simpl; eauto.
  - case_eq_str; simpl; [|eauto].
    destruct (assoc "typeName" mk) as [[| | | | |tk]|]; try discriminate; simpl; eauto.
Qed.

Lemma scan_modifiers_total ms :
  forallb well_typed_modifier ms = true ->
  forall p, succeeds (scan_modifiers ms p).
Proof.
  unfold succeeds.
  induction ms as [|m ms IH]; intros Hwt p; simpl; [eauto|].
  simpl in Hwt. apply andb_true_iff in Hwt as [Hm Hms].
  destruct (modifier_tests_total _ Hm) as [[public ->] [deprecated ->]]. simpl.
  destruct deprecated; eauto.
Qed.

(** On well-typed modifiers without the deprecated marker, the scan ends
    with [is_public] set once a [public] keyword is among them. *)
Lemma scan_modifiers_clean ms :
  forallb well_typed_modifier ms = true ->
  ~ Exists is_deprecated_marker ms ->
  forall p, p = true \/ Exists is_public_modifier ms ->
  scan_modifiers ms p = Ok (true, false).
Proof.
  induction ms as [|m ms IH]; intros Hwt Hclean p Hpub; simpl.
  - destruct Hpub as [-> | Hex]; [done | inversion Hex].
  - simpl in Hwt. apply andb_true_iff in Hwt as [Hm Hms].
    destruct (modifier_tests_total _ Hm) as [[public Hp] [deprecated Hd]].
    rewrite Hp. simpl. rewrite Hd. simpl.
    destruct deprecated.
    { destruct Hclean. left. by apply is_deprecated_annotation_true. }
    apply IH; [done | by intros Hex; apply Hclean; right |].
    destruct Hpub as [-> | [Hhead | Htail]%Exists_cons].
    + left. by destruct public.
    + left. apply is_public_keyword_true in Hhead.
      rewrite Hhead in Hp. by injection Hp as <-.
    + by right.
Qed.

(** The name the pipeline reads from a well-typed declaration is a string:
    the declared one, or the empty default. *)
Lemma well_typed_read_name kvs :
  if_present well_typed_name (assoc "name" kvs) = true ->
  exists s,
    (do nm <- py_get (JObj kvs) "name" (JObj []); py_get nm "identifier" (JStr ""))
      = Ok (JStr s) /\
    (s = "" \/ declared_name (JObj kvs) s).
Proof.
  intros Hwt. simpl.
  destruct (assoc "name" kvs) as [nm|] eqn:Hnm; simpl in *; [|exists ""; eauto].
  unfold well_typed_name in Hwt. apply andb_true_iff in Hwt as [Hobj Hid].
  destruct nm as [| | | | |nk]; try discriminate. simpl in *.
  destruct (assoc "identifier" nk) as [idf|] eqn:Hidf; simpl in *; [|exists ""; eauto].
  destruct idf as [| | |s| |]; try discriminate.
  exists s. split; [done|]. right. exists (JObj nk). by split.
Qed.

Lemma filter_decl_total i :
  well_typed_decl i = true -> field "node" i <> None -> succeeds (filter_decl i).
Proof.
  unfold well_typed_decl, succeeds. rewrite !andb_true_iff.
  intros ((((Hobj & Hname) & Hmods) & Hrt) & _) Hnode.
  destruct i as [| | | | |kvs]; try discriminate.
  destruct (well_typed_read_name _ Hname) as (s & Hs & _).
  unfold filter_decl.
  apply bind_Ok in Hs as Hs'. destruct Hs' as (nm & Hnm & Hidf).
  rewrite Hnm. simpl bind at 1. rewrite Hidf. simpl.
  destruct (String.prefix "set" s); [eauto|].
  simpl in Hnode. destruct (assoc "node" kvs) as [node|]; [|done]. simpl.
  case_eq_str; simpl; [|eauto].
  simpl in Hmods.
  assert (Hscan : exists flags,
            (do ms <- py_iter match assoc "modifiers" kvs with
                              | Some v => v
                              | None => JArr []
                              end;
             scan_modifiers ms false) = Ok flags).
  { destruct (assoc "modifiers" kvs) as [mods|]; simpl in *; [|eauto].
    destruct mods as [| | | |ms|]; try discriminate. simpl.
    by apply scan_modifiers_total. }
  destruct Hscan as (flags & Hscan).
  apply bind_Ok in Hscan as (ms & Hiter & Hscan).
  rewrite Hiter. simpl. rewrite Hscan. simpl.
  destruct flags as [[|] [|]]; simpl; eauto.
  destruct (assoc "returnType2" kvs) as [[| | | | |]|]; eauto.
Qed.

(** The pipeline in the terms of the node: a declaration passes exactly
    when it is a method declaration whose name is not a mutator's, with a
    [public] keyword and no deprecated marker among its modifiers, and a
    return type. *)
Lemma passes_filter_inv i name :
  passes_filter i name ->
  exists s ms rt,
    (declared_name i s \/ s = "") /\
    String.prefix "set" s = false /\ name = strip_get s /\
    field "node" i = Some (JStr "MethodDeclaration") /\
    field "modifiers" i = Some (JArr ms) /\
    Exists is_public_modifier ms /\ ~ Exists is_deprecated_marker ms /\
    field "returnType2" i = Some rt /\ rt <> JNull.
Proof.
  intros Hpass.
  destruct (filter_decl_Some _ _ Hpass)
    as (kvs & nm & s & node & mods & ms & rt & -> & Hnm & Hs & Hset & -> & Hnode &
        -> & Hmods & Hiter & Hscan & Hrt & Hnull).
  apply (scan_modifiers_of_array _ _ Hiter) in Hscan as Harr. subst mods.
  exists s, ms, rt.
  destruct (scan_modifiers_public _ _ _ Hscan eq_refl) as [? | Hpub]; [done|].
  assert (Hms : field "modifiers" (JObj kvs) = Some (JArr ms)).
  { apply (py_get_not_default _ _ _ _ Hmods). intros [= ->]. inversion Hpub. }
  repeat split; try done.
  - destruct (decide (s = "")) as [-> | Hne]; [by right | left].
    apply py_get_not_default in Hs; [|congruence].
    exists nm. split; [|done].
    apply (py_get_not_default _ _ _ _ Hnm). intros ->. discriminate Hs.
  - simpl in *. by destruct (assoc "node" kvs); simplify_eq.
  - intros Hdep.
    assert (Hflag : (true, false).2 = true); [|discriminate].
    by apply (scan_modifiers_deprecated _ _ _ Hscan).
  - by apply (py_get_not_default _ _ _ _ Hrt).
Qed.

Lemma passes_filter_intro i n ms rt :
  declared_name i n -> String.prefix "set" n = false ->
  field "node" i = Some (JStr "MethodDeclaration") ->
  field "modifiers" i = Some (JArr ms) ->
  forallb well_typed_modifier ms = true ->
  Exists is_public_modifier ms -> ~ Exists is_deprecated_marker ms ->
  field "returnType2" i = Some rt -> rt <> JNull ->
  passes_filter i (strip_get n).
Proof.
  intros (nm & Hnm & Hid) Hset Hnode Hmods Hwt Hpub Hclean Hrt Hnull.
  unfold passes_filter, filter_decl.
  rewrite (py_get_field _ _ _ _ Hnm). simpl.
  rewrite (py_get_field _ _ _ _ Hid). simpl. rewrite Hset.
  destruct (field_is_obj _ _ _ Hnode) as [kvs ->]. simpl in Hnode |- *.
  rewrite Hnode. simpl.
  simpl in Hmods. rewrite Hmods. simpl.
  rewrite (scan_modifiers_clean _ Hwt Hclean false (or_intror Hpub)). simpl.
  simpl in Hrt. rewrite Hrt. by destruct rt.
Qed.

Lemma passes_filter_not_null i name :
  passes_filter i name -> field "returnType2" i <> Some JNull.
Proof.
  intros (kvs & nm & s & node & mods & ms & rt & -> & _ & _ & _ & _ & _ & _ &
          _ & _ & _ & Hrt & Hne)%filter_decl_Some Hnull.
  rewrite (py_get_field _ _ _ _ Hnull) in Hrt. congruence.
Qed.

Lemma body_total b i :
  well_typed_decl i = true -> field "node" i <> None -> succeeds (body b i).
Proof.
  intros Hwt Hnode. destruct (filter_decl_total _ Hwt Hnode) as [r Hr].
  unfold body, succeeds. rewrite Hr. simpl. destruct r as [name|]; [|eauto].
  destruct (route_total i Hwt (passes_filter_not_null _ _ Hr)) as [k ->]. simpl. eauto.
Qed.

(** C3, as the code has it: of the fields of a member declaration only the
    node-kind tag is required.  On a declaration whose present fields are
    well typed, the absence of [name], [modifiers], [returnType2] or
    [parameters] is met by a default and the turn of the loop returns; an
    absent [modifiers] list reads as the empty list, so the declaration is
    skipped as not public; an absent node-kind tag ends the run with
    [KeyError] (unless the name is a mutator's, which is skipped before the
    tag is read); and so does an absent root type list. *)
Theorem C3_only_node_tag_required :
  (forall i b,
     well_typed_decl i = true -> field "node" i <> None -> succeeds (body b i)) /\
  (forall i b,
     well_typed_decl i = true -> field "node" i <> None ->
     field "modifiers" i = None -> body b i = Ok b) /\
  (forall i b,
     well_typed_decl i = true -> field "node" i = None ->
     (forall n, declared_name i n -> String.prefix "set" n = false) ->
     body b i = Raise KeyError) /\
  (forall kvs, assoc "types" kvs = None -> run (JObj kvs) = Raise KeyError).
Proof.
  split; [|split; [|split]].
  - intros i b. apply body_total.
  - intros i b Hwt Hnode Hmods.
    destruct (body_total b i Hwt Hnode) as [b' Hb]. rewrite Hb. f_equal.
    apply body_Ok in Hb as [[_ ->] | (name & k & Hpass & _)]; [done|].
    destruct (filter_decl_Some _ _ Hpass)
      as (kvs & nm & s & node & mods & ms & rt & -> & _ & _ & _ & _ & _ & _ &
          Hget & Hiter & Hscan & _).
    simpl in Hmods, Hget. rewrite Hmods in Hget. injection Hget as <-.
    simpl in Hiter. injection Hiter as <-. discriminate Hscan.
  - intros i b. unfold well_typed_decl. rewrite !andb_true_iff.
    intros ((((Hobj & Hname) & _) & _) & _) Hnode Hnotset.
    destruct i as [| | | | |kvs]; try discriminate.
    destruct (well_typed_read_name _ Hname) as (s & Hs & Hdecl).
    unfold body, filter_decl.
    apply bind_Ok in Hs as Hs'. destruct Hs' as (nm & Hnm & Hidf).
    rewrite Hnm. simpl bind at 1. rewrite Hidf. simpl.
    assert (Hset : String.prefix "set" s = false).
    { destruct Hdecl as [-> | Hdecl]; [reflexivity | by apply Hnotset]. }
    rewrite Hset. simpl in Hnode. by rewrite Hnode.
  - intros kvs Htypes. unfold run, classify, declarations. simpl. by rewrite Htypes.
Qed.

Lemma C3_witness :
  (well_typed_decl getSunrise_no_modifiers = true /\
   field "node" getSunrise_no_modifiers <> None /\
   field "modifiers" getSunrise_no_modifiers = None /\
   body empty_buckets getSunrise_no_modifiers = Ok empty_buckets) /\
  (well_typed_decl getSunrise_no_node = true /\
   field "node" getSunrise_no_node = None /\
   body empty_buckets getSunrise_no_node = Raise KeyError) /\
  run (JObj []) = Raise KeyError.
Proof.
  destruct C3_only_node_tag_required as (_ & Hmods & Hnode & Htypes).
  split; [|split].
  - split; [reflexivity|]. split; [discriminate|]. split; [reflexivity|].
    apply Hmods; [reflexivity | discriminate | reflexivity].
  - split; [reflexivity|]. split; [reflexivity|].
    apply Hnode; [reflexivity | reflexivity |].
    intros n (nm & Hnm & Hid). simpl in Hnm. injection Hnm as <-.
    simpl in Hid. injection Hid as <-. reflexivity.
  - apply Htypes. reflexivity.
Defined.

(** C3, as stated, fails for the modifiers list: [getSunrise] without a
    [modifiers] field is well typed and is not a mutator, and the turn of the
    loop on it returns. *)
Lemma C3_counterexample : ~ required_field "modifiers".
Proof.
  intros H.
  apply (H getSunrise_no_modifiers empty_buckets); [reflexivity | reflexivity | |].
  - intros n (nm & Hnm & Hid). simpl in Hnm. injection Hnm as <-.
    simpl in Hid. injection Hid as <-. reflexivity.
  - exists empty_buckets. reflexivity.
Qed.

(** * Properties of the emitter *)

(** ** Text *)

Lemma string_app_assoc (a b c : string) : (a +:+ b) +:+ c = a +:+ (b +:+ c).
Proof. induction a as [|x a IH]; [done | exact (f_equal (String x) IH)]. Qed.

Lemma string_app_empty_r (a : string) : a +:+ "" = a.
Proof. induction a as [|x a IH]; [done | exact (f_equal (String x) IH)]. Qed.

Lemma join_cons (p : string) (ps : list string) : join (p :: ps) = p +:+ join ps.
Proof. reflexivity. Qed.

Lemma join_app (ps qs : list string) : join (ps ++ qs) = join ps +:+ join qs.
Proof.
  induction ps as [|p ps IH]; [done|].
  change ((p :: ps) ++ qs)%list with (p :: (ps ++ qs))%list.
  by rewrite !join_cons, IH, string_app_assoc.
Qed.

(** A loop that appends one piece per element builds the buffer followed by
    the pieces in order. *)
Lemma fold_left_append {A} (f : A -> string) (l : list A) (buffer : string) :
  fold_left (fun buffer x => buffer +:+ f x) l buffer = buffer +:+ join (map f l).
Proof.
  revert buffer. induction l as [|x l IH]; intros buffer; cbn [fold_left map].
  - apply eq_sym, string_app_empty_r.
  - by rewrite IH, join_cons, string_app_assoc.
Qed.

(** ** Constants *)

Lemma constants_loop_step buffer c table decl :
  static_declaration c = Some decl ->
  constants_loop buffer (c :: table) = constants_loop (buffer +:+ decl) table.
Proof.
  unfold static_declaration. cbn [constants_loop].
  destruct (Constant.type c) as [| | |q [[|]|e]]; intros [= <-]; reflexivity.
Qed.


(** A record without a rendering ends the loop: with [ValueError] when its
    comparison with [datetime] returns, with the comparison's exception
    otherwise. *)
Lemma constants_loop_abort c :
  static_declaration c = None ->
  exists e,
    (forall buffer table, constants_loop buffer (c :: table) = Raise e) /\
    (e = ValueError \/ exists q, Constant.type c = TClass q (Raise e)).
Proof.
  unfold static_declaration. cbn [constants_loop].
  destruct (Constant.type c) as [| | |q [[|]|e]]; try discriminate; intros _.
  - exists ValueError. split; [done | by left].
  - exists e. split; [done | right; by exists q].
Qed.

Lemma constants_loop_known table : forall buffer decls,
  Forall2 (fun c decl => static_declaration c = Some decl) table decls ->
  constants_loop buffer table = Ok (buffer +:+ join decls).
Proof.
  induction table as [|c table IH]; intros buffer decls Hdecls.
  - apply Forall2_nil_inv_l in Hdecls as ->. cbn. by rewrite string_app_empty_r.
  - apply Forall2_cons_inv_l in Hdecls as (decl & decls' & Hdecl & Hdecls & ->).
    rewrite (constants_loop_step _ _ _ _ Hdecl), (IH _ _ Hdecls).
    by rewrite join_cons, string_app_assoc.
Qed.

Lemma constants_loop_unknown table : forall buffer,
  Exists (fun c => static_declaration c = None) table ->
  exists e, constants_loop buffer table = Raise e.
Proof.
  induction table as [|c table IH]; intros buffer Hex; [by inversion Hex|].
  destruct (static_declaration c) as [decl|] eqn:Hdecl.
  - rewrite (constants_loop_step _ _ _ _ Hdecl). apply IH.
    apply Exists_cons in Hex as [Hc | Hex]; [congruence | done].
  - destruct (constants_loop_abort _ Hdecl) as (e & He & _). exists e. apply He.
Qed.


Lemma constants_loop_Ok table buffer out :
  constants_loop buffer table = Ok out ->
  exists decls,
    Forall2 (fun c decl => static_declaration c = Some decl) table decls /\
    out = buffer +:+ join decls.
Proof.
  intros Hout.
  destruct (decide (Exists (fun c => static_declaration c = None) table)) as [Hex | Hall].
  - destruct (constants_loop_unknown _ buffer Hex) as [e He]. congruence.
  - apply not_Exists_Forall in Hall; [|intros c; apply _].
    assert (Hsome : Forall (fun c => is_Some (static_declaration c)) table).
    { eapply Forall_impl; [exact Hall|]. intros c Hc. simpl in Hc.
      destruct (static_declaration c); [eauto | done]. }
    clear Hall. revert buffer Hout.
    induction Hsome as [|c table [decl Hdecl] _ IH]; intros buffer Hout.
    + exists []. split; [constructor|]. cbn in Hout. injection Hout as <-.
      by rewrite string_app_empty_r.
    + rewrite (constants_loop_step _ _ _ _ Hdecl) in Hout.
      destruct (IH _ Hout) as (decls & Hdecls & ->).
      exists (decl :: decls). split; [by constructor|].
      by rewrite join_cons, string_app_assoc.
Qed.

Lemma static_declaration_known c :
  known_type (Constant.type c) -> is_Some (static_declaration c).
Proof.
  unfold known_type, static_declaration. intros [-> | [-> | ->]]; eauto.
Qed.

Lemma known_declarations table :
  Forall (fun c => known_type (Constant.type c)) table ->
  exists decls, Forall2 (fun c decl => static_declaration c = Some decl) table decls.
Proof.
  induction 1 as [|c table [decl Hdecl]%static_declaration_known _ [decls IH]].
  - exists []. constructor.
  - exists (decl :: decls). by constructor.
Qed.

(** C4: for every constant record the emitter writes exactly one static
    declaration.  On a table whose records all have one of the three known
    types, the text written is the prelude followed by one declaration per
    record, in table order: for a real the literal text verbatim under
    [f64], for an integer the literal verbatim under [i64], for an instant
    [DateTime::from_timestamp_millis] applied to the literal and unwrapped,
    so that initialization aborts when the construction fails. *)
Theorem C4_one_static_declaration_per_constant (table : list Constant.t) :
  Forall (fun c => known_type (Constant.type c)) table ->
  exists decls,
    constants_buffer table = Ok (prelude +:+ join decls) /\
    length decls = length table /\
    Forall2 (fun c decl =>
      (Constant.type c = TFloat ->
       decl = "pub static _" +:+ Constant.name c +:+ ": f64 = " +:+
              Constant.value c +:+ ";" +:+ nl) /\
      (Constant.type c = TInt ->
       decl = "pub static _" +:+ Constant.name c +:+ ": i64 = " +:+
              Constant.value c +:+ ";" +:+ nl) /\
      (Constant.type c = TDatetime ->
       decl = "pub static _" +:+ Constant.name c +:+
              ": DateTime<Utc> = DateTime::from_timestamp_millis(" +:+
              Constant.value c +:+ ").unwrap();" +:+ nl)) table decls.
Proof.
  intros Hknown.
  destruct (known_declarations _ Hknown) as [decls Hdecls].
  exists decls. split; [by apply constants_loop_known|]. split.
  - symmetry. by eapply Forall2_length.
  - eapply Forall2_impl; [exact Hdecls|]. intros c decl. cbn beta.
    unfold static_declaration.
    destruct (Constant.type c) as [| | |q [[|]|e]]; intros [= <-]; repeat split; intros [=]; reflexivity.
Qed.

Lemma CONSTANTS_known : Forall (fun c => known_type (Constant.type c)) CONSTANTS.
Proof.
  unfold CONSTANTS.
  repeat (constructor; [unfold known_type; cbn; tauto|]). constructor.
Defined.

Lemma C4_witness :
  Forall (fun c => known_type (Constant.type c)) CONSTANTS /\
  exists decls,
    constants = Ok (prelude +:+ join decls) /\ length decls = length CONSTANTS.
Proof.
  split; [exact CONSTANTS_known|].
  destruct (C4_one_static_declaration_per_constant CONSTANTS CONSTANTS_known)
    as (decls & Hbuf & Hlen & _).
  exists decls. split; [exact Hbuf | exact Hlen].
Defined.




(** ** Enumerations *)

Section EmitterFacts.

Variable pascalcase : string -> string.

Lemma transliterated_enums_to_rust_shape name enums :
  transliterated_enums_to_rust pascalcase name enums =
  enum_declaration name
    (map (fun m => enum_variant (variant_key pascalcase m) (TransliteratedEnumMember.value m)) enums) +:+
  ("impl " +:+ name +:+ " {" +:+ nl +:+
   lookup_fn "en_string"
     (map (fun m => match_arm name (variant_key pascalcase m) (TransliteratedEnumMember.transliterated_name m)) enums) +:+
   lookup_fn "he_string"
     (map (fun m => match_arm name (variant_key pascalcase m) (TransliteratedEnumMember.name m)) enums) +:+
   "}" +:+ nl).
Proof.
  unfold transliterated_enums_to_rust. cbv zeta.
  rewrite !fold_left_append.
  unfold enum_declaration, lookup_fn, match_arm, enum_variant, variant_key.
  rewrite !string_app_assoc. reflexivity.
Qed.

Lemma plain_enum_shape buffer enum :
  plain_enum pascalcase buffer enum =
  buffer +:+
  enum_declaration ("_" +:+ pascalcase (Enum.name enum))
    (map (fun m => enum_variant (pascalcase (EnumMember.name m)) (EnumMember.value m))
         (Enum.members enum)).
Proof.
  unfold plain_enum. cbv zeta. rewrite fold_left_append.
  unfold enum_declaration, enum_variant.
  rewrite !string_app_assoc. reflexivity.
Qed.

Lemma fold_plain_enum ENUMS : forall buffer,
  fold_left (plain_enum pascalcase) ENUMS buffer =
  buffer +:+ join (map (plain_enum pascalcase "") ENUMS).
Proof.
  induction ENUMS as [|e ENUMS IH]; intros buffer; cbn [fold_left map].
  - apply eq_sym, string_app_empty_r.
  - rewrite IH, join_cons, <- string_app_assoc. f_equal.
    by rewrite !plain_enum_shape.
Qed.

(** C5: for every table of transliterated members, the emitted text is the
    enumeration declaration followed by an [impl] block of two lookup
    functions, [en_string] and [he_string].  The body of each is a
    [match self] holding one arm per member of the table, in table order,
    and nothing else (no default arm); the arm of a member is keyed by the
    identifier-cased transliterated label, the key of its variant in the
    enumeration, and gives the transliterated string in [en_string] and the
    native-script string in [he_string]. *)
Theorem C5_lookup_functions_one_arm_per_member
    (name : string) (enums : list TransliteratedEnumMember.t) :
  exists variants en_arms he_arms,
    transliterated_enums_to_rust pascalcase name enums =
      enum_declaration name variants +:+
      ("impl " +:+ name +:+ " {" +:+ nl +:+
       lookup_fn "en_string" en_arms +:+
       lookup_fn "he_string" he_arms +:+
       "}" +:+ nl) /\
    variants =
      map (fun m => enum_variant (pascalcase (TransliteratedEnumMember.transliterated_name m))
                      (TransliteratedEnumMember.value m)) enums /\
    en_arms =
      map (fun m => match_arm name (pascalcase (TransliteratedEnumMember.transliterated_name m)) (TransliteratedEnumMember.transliterated_name m)) enums /\
    he_arms =
      map (fun m => match_arm name (pascalcase (TransliteratedEnumMember.transliterated_name m))
                      (TransliteratedEnumMember.name m)) enums /\
    length en_arms = length enums /\ length he_arms = length enums.
Proof.
  eexists _, _, _. split; [apply transliterated_enums_to_rust_shape|].
  split; [reflexivity|]. split; [reflexivity|]. split; [reflexivity|].
  by rewrite !length_map.
Qed.

(** C10: every constant declaration the emitter writes names its static
    with an underscore before the record's name, and every plain
    enumeration is declared under an underscore followed by the
    identifier-cased name of the enum record; the seven transliterated
    enumerations are declared under the names [enums] passes, [Parsha],
    [JewishHoliday], [DayOfWeek], [JewishMonth], [YearLengthType],
    [BavliTractate] and [YerushalmiTractate], none of which starts with an
    underscore. *)
Theorem C10_underscore_prefix :
  (forall table out,
     constants_buffer table = Ok out ->
     exists decls,
       out = prelude +:+ join decls /\
       Forall2 (fun c decl =>
         exists rest, decl = "pub static _" +:+ Constant.name c +:+ rest) table decls) /\
  (forall ENUMS T,
     exists plain translits,
       enums_buffer pascalcase ENUMS T = prelude +:+ join plain +:+ join translits /\
       Forall2 (fun e decl =>
         exists variants,
           decl = enum_declaration ("_" +:+ pascalcase (Enum.name e)) variants)
         ENUMS plain /\
       Forall2 (fun n decl =>
         exists variants impl, decl = enum_declaration n variants +:+ impl)
         transliterated_names translits /\
       Forall (fun n => String.prefix "_" n = false) transliterated_names).
Proof.
  split.
  - intros table out (decls & Hdecls & ->)%constants_loop_Ok.
    exists decls. split; [done|].
    eapply Forall2_impl; [exact Hdecls|]. intros c decl. cbn beta.
    unfold static_declaration. destruct (Constant.type c) as [| | |q [[|]|e]]; intros [= <-]; eauto.
  - intros ENUMS T.
    exists (map (plain_enum pascalcase "") ENUMS),
           (zip_with (transliterated_enums_to_rust pascalcase) transliterated_names
              [PARSHAS T; JEWISH_HOLIDAYS T; DAY_OF_WEEKS T; HEBREW_MONTHS T;
               YEAR_LENGTH_TYPES_ T; BAVLI_TRACTATES T; YERUSHALMI_TRACTATES T]).
    split; [|split; [|split]].
    + unfold enums_buffer. cbv zeta. rewrite fold_plain_enum.
      cbn [zip_with transliterated_names join foldr].
      rewrite !string_app_assoc, string_app_empty_r. reflexivity.
    + apply Forall2_fmap_r, Forall_Forall2_diag, Forall_forall. intros e _.
      eexists. rewrite plain_enum_shape. reflexivity.
    + cbn [zip_with transliterated_names].
      repeat (constructor;
              [eexists _, _; apply transliterated_enums_to_rust_shape|]).
      constructor.
    + unfold transliterated_names. repeat (constructor; [reflexivity|]). constructor.
Qed.

End EmitterFacts.

Lemma C10_witness :
  constants_buffer [Constant.Make "EARTH_RADIUS" TFloat "6356.9"] =
    Ok (prelude +:+ "pub static _EARTH_RADIUS: f64 = 6356.9;" +:+ nl) /\
  exists decls,
    prelude +:+ "pub static _EARTH_RADIUS: f64 = 6356.9;" +:+ nl = prelude +:+ join decls /\
    Forall2 (fun c decl =>
      exists rest, decl = "pub static _" +:+ Constant.name c +:+ rest)
      [Constant.Make "EARTH_RADIUS" TFloat "6356.9"] decls.
Proof.
  assert (H : constants_buffer [Constant.Make "EARTH_RADIUS" TFloat "6356.9"] =
              Ok (prelude +:+ "pub static _EARTH_RADIUS: f64 = 6356.9;" +:+ nl))
    by reflexivity.
  split; [exact H|].
  exact (proj1 (C10_underscore_prefix pascalcase_ENUMS) _ _ H).
Defined.

(** ** The emitter on the tables of the repository *)

Example constants_first_lines :
  exists rest,
    constants =
    Ok (prelude +:+
        "pub static _JULIAN_DAY_JAN_1_2000: f64 = 2451545.0;" +:+ nl +:+
        "pub static _JULIAN_DAYS_PER_CENTURY: f64 = 36525.0;" +:+ nl +:+
        "pub static _EARTH_RADIUS: f64 = 6356.9;" +:+ nl +:+ rest).
Proof. eexists. vm_compute. reflexivity. Qed.

Example enums_SOLAR_EVENT :
  plain_enum pascalcase_ENUMS "" (Enum.Make "SOLAR_EVENT"
    [EnumMember.Make "Sunrise" 0; EnumMember.Make "Sunset" 1;
     EnumMember.Make "Noon" 2; EnumMember.Make "Midnight" 3]) =
  derive_line +:+ repr_line +:+
  "pub enum _SolarEvent {" +:+ nl +:+
  "    Sunrise = 0," +:+ nl +:+
  "    Sunset = 1," +:+ nl +:+
  "    Noon = 2," +:+ nl +:+
  "    Midnight = 3," +:+ nl +:+
  "}" +:+ nl.
Proof. vm_compute. reflexivity. Qed.

Example year_length_type_text :
  transliterated_enums_to_rust pascalcase_ENUMS "YearLengthType" YEAR_LENGTH_TYPES =
  derive_line +:+ repr_line +:+
  "pub enum YearLengthType {" +:+ nl +:+
  "    Chaserim = 0," +:+ nl +:+
  "    Kesidran = 1," +:+ nl +:+
  "    Shelaimim = 2," +:+ nl +:+
  "}" +:+ nl +:+
  "impl YearLengthType {" +:+ nl +:+
  "pub fn en_string(&self) -> &str { match self {" +:+
  "    YearLengthType::Chaserim => " +:+ dquote +:+ "Chaserim" +:+ dquote +:+ "," +:+ nl +:+
  "    YearLengthType::Kesidran => " +:+ dquote +:+ "Kesidran" +:+ dquote +:+ "," +:+ nl +:+
  "    YearLengthType::Shelaimim => " +:+ dquote +:+ "Shelaimim" +:+ dquote +:+ "," +:+ nl +:+
  "}}" +:+ nl +:+
  "pub fn he_string(&self) -> &str { match self {" +:+
  "    YearLengthType::Chaserim => " +:+ dquote +:+ "חסרים" +:+ dquote +:+ "," +:+ nl +:+
  "    YearLengthType::Kesidran => " +:+ dquote +:+ "כסדרן" +:+ dquote +:+ "," +:+ nl +:+
  "    YearLengthType::Shelaimim => " +:+ dquote +:+ "שלמים" +:+ dquote +:+ "," +:+ nl +:+
  "}}" +:+ nl +:+
  "}" +:+ nl.
Proof. vm_compute. reflexivity. Qed.

(** ** The classifier on sample classes *)

Example run_two_methods :
  run (class_of [getSunrise; getSunriseOffset; getSunrise; setGeoLocation;
                 deprecated_getSunrise]) =
  Ok ["pub enum Calculations {"; "    SunriseOffsetByDegrees,"; "}"].
Proof. vm_compute. reflexivity. Qed.

Example sorted_is_case_sensitive :
  sorted {["getAlos"; "Zman"; "alos"; "Alos"]} = ["Alos"; "Zman"; "alos"; "getAlos"].
Proof. vm_compute. reflexivity. Qed.

Example run_missing_types : run (JObj []) = Raise KeyError.
Proof. reflexivity. Qed.

Example run_empty_types : run (JObj [("types", JArr [])]) = Raise IndexError.
Proof. reflexivity. Qed.

(** * Further properties of the classifier *)

(** ** Runs that complete *)

Lemma body_succeeds b i : succeeds (body b i) <-> classifiable i.
Proof.
  split.
  - intros [b' [[Hnone _] | (name & k & Hpass & Hroute & _)]%body_Ok].
    + exists None. split; [done|]. discriminate.
    + exists (Some name). split; [done|]. intros _ _. by exists k.
  - intros (r & Hr & Hroute). unfold body, succeeds. rewrite Hr. simpl.
    destruct r as [name|]; [|eauto].
    destruct (Hroute name eq_refl) as [k ->]. simpl. eauto.
Qed.

Lemma loop_succeeds l : forall b, succeeds (loop b l) <-> Forall classifiable l.
Proof.
  induction l as [|i l IH]; intros b; simpl.
  - split; [constructor | by exists b].
  - split.
    + intros [b' H]. step H as b1 Hb1. constructor.
      * apply (body_succeeds b). by exists b1.
      * apply (IH b1). by exists b'.
    + intros [Hi Hl]%Forall_cons.
      destruct (proj2 (body_succeeds b i) Hi) as [b1 ->]. simpl. by apply IH.
Qed.

Lemma buckets_ext (b b' : buckets) :
  (forall k x, x ∈ get_bucket k b <-> x ∈ get_bucket k b') -> b = b'.
Proof.
  intros H. destruct b as [m c o], b' as [m' c' o'].
  f_equal; apply set_eq; intros x.
  - apply (H ArgTaking).
  - apply (H ZeroArg).
  - apply (H Other).
Qed.

(** X1: the buckets are sets, so a run that completes ends with the same
    buckets on every list that holds the same declarations: neither the
    order of the member declarations nor a repeated declaration changes the
    result. *)
Theorem loop_depends_on_members_only (l1 l2 : list json) (b0 b : buckets) :
  (forall i, i ∈ l1 <-> i ∈ l2) ->
  loop b0 l1 = Ok b -> loop b0 l2 = Ok b.
Proof.
  intros Hmem H1.
  assert (Hok : succeeds (loop b0 l2)).
  { apply loop_succeeds, Forall_forall. intros i Hi.
    assert (Hall : Forall classifiable l1) by (apply (loop_succeeds l1 b0); by exists b).
    apply (proj1 (Forall_forall _ _) Hall), Hmem, Hi. }
  destruct Hok as [b2 H2]. rewrite H2. f_equal.
  apply buckets_ext. intros k x.
  rewrite (loop_spec _ _ _ H1 k x), (loop_spec _ _ _ H2 k x).
  split; (intros [?|(i & Hi & ?)]; [by left | right; exists i; split; [by apply Hmem | done]]).
Qed.

Lemma loop_depends_on_members_only_witness :
  (forall i, i ∈ [getSunrise; getSunriseOffset] <->
             i ∈ [getSunriseOffset; getSunrise; getSunrise]) /\
  loop empty_buckets [getSunrise; getSunriseOffset] =
    Ok (Buckets {["SunriseOffsetByDegrees"]} {["Sunrise"]} ∅) /\
  loop empty_buckets [getSunriseOffset; getSunrise; getSunrise] =
    Ok (Buckets {["SunriseOffsetByDegrees"]} {["Sunrise"]} ∅).
Proof.
  assert (Hmem : forall i, i ∈ [getSunrise; getSunriseOffset] <->
                           i ∈ [getSunriseOffset; getSunrise; getSunrise]).
  { intros i. rewrite !elem_of_cons, elem_of_nil. tauto. }
  assert (H1 : loop empty_buckets [getSunrise; getSunriseOffset] =
               Ok (Buckets {["SunriseOffsetByDegrees"]} {["Sunrise"]} ∅))
    by (vm_compute; reflexivity).
  split; [exact Hmem|]. split; [exact H1|].
  exact (loop_depends_on_members_only _ _ _ _ Hmem H1).
Defined.

Lemma size_add_le (x : string) (s : gset string) : size ({[x]} ∪ s) <= S (size s).
Proof.
  rewrite size_union_alt, size_singleton. apply le_n_S, subseteq_size.
  apply subseteq_difference_l. done.
Qed.

Lemma names_held_add k name b : names_held (add k name b) <= S (names_held b).
Proof.
  unfold names_held. pose proof (size_add_le name) as H.
  destruct k; simpl.
  - specialize (H (zmanim_calc_methods b)). lia.
  - specialize (H (zmanim_methods b)). lia.
  - specialize (H (other_methods b)). lia.
Qed.

Lemma loop_names_held l : forall b0 b,
  loop b0 l = Ok b -> names_held b <= names_held b0 + length l.
Proof.
  induction l as [|i l IH]; intros b0 b H; simpl in H.
  - injection H as <-. lia.
  - step H as b1 Hb1. apply IH in H. simpl.
    apply body_Ok in Hb1 as [[_ ->] | (name & k & _ & _ & ->)]; [lia|].
    pose proof (names_held_add k name b0). lia.
Qed.

(** X2: a declaration adds at most one name to at most one bucket, so the
    three buckets of a completed run hold, together, no more names than the
    class has member declarations. *)
Theorem classify_names_bounded (data : json) (decls : list json) (b : buckets) :
  declarations data = Ok decls -> classify data = Ok b ->
  names_held b <= length decls.
Proof.
  intros Hd Hb. apply (loop_names_held _ _ _ (classify_loop _ _ _ Hd Hb)).
Qed.

Lemma classify_names_bounded_witness :
  declarations (class_of [getSunrise; getSunriseOffset; getSunrise]) =
    Ok [getSunrise; getSunriseOffset; getSunrise] /\
  classify (class_of [getSunrise; getSunriseOffset; getSunrise]) =
    Ok (Buckets {["SunriseOffsetByDegrees"]} {["Sunrise"]} ∅) /\
  names_held (Buckets {["SunriseOffsetByDegrees"]} {["Sunrise"]} ∅) <= 3.
Proof.
  assert (Hd : declarations (class_of [getSunrise; getSunriseOffset; getSunrise]) =
               Ok [getSunrise; getSunriseOffset; getSunrise]) by reflexivity.
  assert (Hb : classify (class_of [getSunrise; getSunriseOffset; getSunrise]) =
               Ok (Buckets {["SunriseOffsetByDegrees"]} {["Sunrise"]} ∅))
    by (vm_compute; reflexivity).
  split; [exact Hd|]. split; [exact Hb|].
  exact (classify_names_bounded _ _ _ Hd Hb).
Defined.

(** ** The pipeline and the routing, field by field *)

(** X4: what passing the filtering pipeline takes.  A declaration that
    passes is a method declaration, its name (the declared one, or the empty
    default) does not start with [set], its [modifiers] field is a list that
    holds a [public] keyword and no [@Deprecated] marker, and its return
    type is there and not null; the name carried on is the name without a
    leading [get].  Conversely a declaration with all of that, whose
    modifiers are well typed, passes. *)
Theorem filter_decl_characterisation :
  (forall i name,
     passes_filter i name ->
     exists s ms rt,
       (declared_name i s \/ s = "") /\
       String.prefix "set" s = false /\ name = strip_get s /\
       field "node" i = Some (JStr "MethodDeclaration") /\
       field "modifiers" i = Some (JArr ms) /\
       Exists is_public_modifier ms /\ ~ Exists is_deprecated_marker ms /\
       field "returnType2" i = Some rt /\ rt <> JNull) /\
  (forall i n ms rt,
     declared_name i n -> String.prefix "set" n = false ->
     field "node" i = Some (JStr "MethodDeclaration") ->
     field "modifiers" i = Some (JArr ms) ->
     forallb well_typed_modifier ms = true ->
     Exists is_public_modifier ms -> ~ Exists is_deprecated_marker ms ->
     field "returnType2" i = Some rt -> rt <> JNull ->
     passes_filter i (strip_get n)).
Proof. split; [apply passes_filter_inv | apply passes_filter_intro]. Qed.

Lemma public_modifier_is_public : is_public_modifier public_modifier.
Proof. split; reflexivity. Defined.

Lemma public_modifier_not_deprecated :
  ~ Exists is_deprecated_marker [public_modifier].
Proof.
  intros [[Hnode _] | Hnil]%Exists_cons; [discriminate Hnode | inversion Hnil].
Defined.

Lemma filter_decl_characterisation_witness :
  passes_filter getSunrise (strip_get "getSunrise") /\ strip_get "getSunrise" = "Sunrise".
Proof.
  split; [|reflexivity].
  refine (proj2 filter_decl_characterisation getSunrise "getSunrise" [public_modifier]
            (simple_type "Date") _ eq_refl eq_refl eq_refl eq_refl _ _ eq_refl _).
  - exists (jname "getSunrise"). split; reflexivity.
  - apply Exists_cons. left. exact public_modifier_is_public.
  - exact public_modifier_not_deprecated.
  - discriminate.
Defined.

Lemma is_date_type_total i rt :
  field "returnType2" i = Some rt -> well_typed_type rt = true -> rt <> JNull ->
  succeeds (is_date_type i).
Proof.
  intros Hrt Hwt Hnull. unfold is_date_type, succeeds.
  rewrite (py_get_field _ _ _ _ Hrt). simpl.
  destruct rt as [| | | | |rk]; try discriminate; [done|].
  unfold well_typed_type in Hwt. simpl in *.
  case_eq_str; simpl; [|eauto].
  destruct (assoc "name" rk) as [[| | | | |nk]|]; try discriminate; simpl; eauto.
Qed.

(** X5: a declaration that passes the pipeline and whose return type is
    not a simple type named [Date] has its name added to the other bucket,
    the two other buckets left as they were.  The [parameters] field is not
    read on this path: whatever it holds, the turn of the loop returns. *)
Theorem non_Date_goes_to_other (i : json) (name : string) (rt : json) :
  passes_filter i name ->
  field "returnType2" i = Some rt -> well_typed_type rt = true ->
  ~ returns_Date i ->
  forall b, exists b',
    body b i = Ok b' /\ name ∈ other_methods b' /\
    other_methods b' = {[name]} ∪ other_methods b /\
    zmanim_methods b' = zmanim_methods b /\
    zmanim_calc_methods b' = zmanim_calc_methods b.
Proof.
  intros Hpass Hrt Hwt Hnot b.
  assert (Hnull : rt <> JNull).
  { intros ->. by apply (passes_filter_not_null _ _ Hpass). }
  apply body_to_other; [done|].
  destruct (is_date_type_total _ _ Hrt Hwt Hnull) as [d Hd].
  unfold route. rewrite Hd. simpl. destruct d; [|done].
  destruct Hnot. by apply (is_date_type_spec _ _ Hd).
Qed.

Lemma non_Date_goes_to_other_witness :
  passes_filter getElevation_null_parameters "Elevation" /\
  field "parameters" getElevation_null_parameters = Some JNull /\
  exists b',
    body empty_buckets getElevation_null_parameters = Ok b' /\
    "Elevation" ∈ other_methods b' /\
    other_methods b' = {["Elevation"]} ∪ other_methods empty_buckets /\
    zmanim_methods b' = zmanim_methods empty_buckets /\
    zmanim_calc_methods b' = zmanim_calc_methods empty_buckets.
Proof.
  split; [reflexivity|]. split; [reflexivity|].
  refine (non_Date_goes_to_other getElevation_null_parameters "Elevation" double_type
            eq_refl eq_refl eq_refl _ empty_buckets).
  intros (rt & nm & Hrt & Hnode & _). simpl in Hrt. injection Hrt as <-.
  discriminate Hnode.
Defined.

Lemma loop_raises b0 l1 i l2 b1 e :
  loop b0 l1 = Ok b1 -> body b1 i = Raise e -> loop b0 (l1 ++ i :: l2) = Raise e.
Proof. intros H1 Hi. rewrite loop_app, H1. simpl. by rewrite Hi. Qed.

(** X6: for a declaration that passes the pipeline and returns [Date], a
    [parameters] list that is there and not empty has the name added to the
    argument-taking bucket, the two other buckets left as they were; a
    [parameters] field that holds null, a boolean or a number has no length,
    and the [TypeError] ends the run at that declaration, whatever comes
    after it. *)
Theorem present_parameters (i : json) (name : string) (v : json) :
  passes_filter i name -> returns_Date i -> field "parameters" i = Some v ->
  (forall p ps, v = JArr (p :: ps) ->
     forall b, exists b',
       body b i = Ok b' /\ name ∈ zmanim_methods b' /\
       zmanim_methods b' = {[name]} ∪ zmanim_methods b /\
       zmanim_calc_methods b' = zmanim_calc_methods b /\
       other_methods b' = other_methods b) /\
  (v = JNull \/ (exists t, v = JBool t) \/ (exists n, v = JNum n) ->
     forall b0 l1 l2 b1,
       loop b0 l1 = Ok b1 -> loop b0 (l1 ++ i :: l2) = Raise TypeError).
Proof.
  intros Hpass Hdate Hv.
  pose proof (returns_Date_is_date_type _ Hdate) as Hd.
  split.
  - intros p ps -> b. apply body_to_arg_taking; [done|].
    unfold route. rewrite Hd. simpl. by rewrite (py_get_field _ _ _ _ Hv).
  - intros Hbad b0 l1 l2 b1 H1. apply (loop_raises _ _ _ _ _ _ H1).
    unfold body. unfold passes_filter in Hpass. rewrite Hpass. simpl.
    unfold route. rewrite Hd. simpl. rewrite (py_get_field _ _ _ _ Hv). simpl.
    by destruct Hbad as [-> | [[t ->] | [n ->]]].
Qed.

Lemma present_parameters_witness :
  passes_filter getSunrise_null_parameters "Sunrise" /\
  returns_Date getSunrise_null_parameters /\
  field "parameters" getSunrise_null_parameters = Some JNull /\
  loop empty_buckets ([getSunrise] ++ getSunrise_null_parameters :: [getSunriseOffset]) =
    Raise TypeError.
Proof.
  assert (Hp : passes_filter getSunrise_null_parameters "Sunrise") by reflexivity.
  assert (Hd : returns_Date getSunrise_null_parameters)
    by (apply returns_Date_simple_type; reflexivity).
  split; [exact Hp|]. split; [exact Hd|]. split; [reflexivity|].
  refine (proj2 (present_parameters _ _ _ Hp Hd eq_refl) (or_introl eq_refl)
            empty_buckets [getSunrise] [getSunriseOffset]
            (add ZeroArg "Sunrise" empty_buckets) _).
  reflexivity.
Defined.

(** ** The root of the tree *)

(** X7: only the first declared type is classified.  When [types] is a
    list, the run is the run on the same tree cut down to that list's first
    element: further types, and every other key of the root, are never
    read. *)
Theorem run_reads_first_type_only (kvs : list (string * json)) (t0 : json) (rest : list json) :
  assoc "types" kvs = Some (JArr (t0 :: rest)) ->
  declarations (JObj kvs) = (do decls <- py_item t0 "bodyDeclarations"; py_iter decls) /\
  run (JObj kvs) = run (JObj [("types", JArr [t0])]).
Proof.
  intros Htypes.
  assert (Hd : declarations (JObj kvs) =
               (do decls <- py_item t0 "bodyDeclarations"; py_iter decls)).
  { unfold declarations. simpl. by rewrite Htypes. }
  split; [done|]. unfold run, classify. by rewrite Hd.
Qed.

Lemma run_reads_first_type_only_witness :
  run (JObj [("node", JStr "CompilationUnit");
             ("types", JArr [JObj [("bodyDeclarations", JArr [getSunriseOffset])];
                             JObj [("bodyDeclarations", JArr [getSunrise_with_date])]])]) =
  run (JObj [("types", JArr [JObj [("bodyDeclarations", JArr [getSunriseOffset])]])]).
Proof.
  refine (proj2 (run_reads_first_type_only _ _ _ _)). reflexivity.
Defined.

(** X8: what the root access does on a tree that is not a class.  An empty
    [types] list ends the run with [IndexError]; a first type without
    [bodyDeclarations] with [KeyError]; a root that is not a mapping, or a
    [types] field that is null, with [TypeError]; nothing is printed in any
    of these runs.  A first type with an empty [bodyDeclarations] list is no
    error: the run prints the enumeration with no variant. *)
Theorem run_on_degenerate_roots :
  (forall kvs, assoc "types" kvs = Some (JArr []) -> run (JObj kvs) = Raise IndexError) /\
  (forall kvs tk rest,
     assoc "types" kvs = Some (JArr (JObj tk :: rest)) ->
     assoc "bodyDeclarations" tk = None -> run (JObj kvs) = Raise KeyError) /\
  (forall data, is_obj data = false -> run data = Raise TypeError) /\
  (forall kvs, assoc "types" kvs = Some JNull -> run (JObj kvs) = Raise TypeError) /\
  (forall kvs tk rest,
     assoc "types" kvs = Some (JArr (JObj tk :: rest)) ->
     assoc "bodyDeclarations" tk = Some (JArr []) ->
     run (JObj kvs) = Ok ["pub enum Calculations {"; "}"]).
Proof.
  unfold run, classify, declarations. repeat split.
  - intros kvs H. simpl. by rewrite H.
  - intros kvs tk rest H Hb. simpl. rewrite H. simpl. by rewrite Hb.
  - intros data H. by destruct data.
  - intros kvs H. simpl. by rewrite H.
  - intros kvs tk rest H Hb. simpl. rewrite H. simpl. rewrite Hb. reflexivity.
Qed.

Lemma run_on_degenerate_roots_witness :
  run (JObj [("types", JArr [])]) = Raise IndexError /\
  run (JObj [("types", JArr [JObj [("node", JStr "TypeDeclaration")]])]) = Raise KeyError /\
  run (JArr []) = Raise TypeError /\
  run (JObj [("types", JNull)]) = Raise TypeError /\
  run (class_of []) = Ok ["pub enum Calculations {"; "}"].
Proof.
  destruct run_on_degenerate_roots as (H1 & H2 & H3 & H4 & H5).
  split; [apply H1; reflexivity|].
  split; [eapply H2; reflexivity|].
  split; [apply H3; reflexivity|].
  split; [apply H4; reflexivity|].
  eapply H5; reflexivity.
Defined.

(** ** Names and buckets *)

(** X9: the buckets are filled per declaration, not per name, and nothing
    keeps them apart: in a completed run a name is in both the zero-argument
    and the argument-taking bucket exactly when it is carried by a
    declaration routed to the first and by a declaration routed to the
    second, as with an overload [getX()] beside [getX(p)]. *)
Theorem name_in_two_buckets (data : json) (decls : list json) (b : buckets) (x : string) :
  declarations data = Ok decls -> classify data = Ok b ->
  (x ∈ zmanim_calc_methods b /\ x ∈ zmanim_methods b <->
   exists i j,
     i ∈ decls /\ j ∈ decls /\ passes_filter i x /\ passes_filter j x /\
     route i = Ok ZeroArg /\ route j = Ok ArgTaking).
Proof.
  intros Hd Hb. pose proof (classify_loop _ _ _ Hd Hb) as Hloop.
  change (zmanim_calc_methods b) with (get_bucket ZeroArg b).
  change (zmanim_methods b) with (get_bucket ArgTaking b).
  rewrite !(loop_spec _ _ _ Hloop). split.
  - intros [[H | (i & Hi & Hpi & Hri)] [H' | (j & Hj & Hpj & Hrj)]];
      try (by destruct (empty_buckets_empty _ _ H));
      try (by destruct (empty_buckets_empty _ _ H')).
    by exists i, j.
  - intros (i & j & Hi & Hj & Hpi & Hpj & Hri & Hrj). split; right; eauto.
Qed.

Lemma name_in_two_buckets_witness :
  declarations (class_of [getSunrise; getSunrise_with_date]) =
    Ok [getSunrise; getSunrise_with_date] /\
  classify (class_of [getSunrise; getSunrise_with_date]) =
    Ok (Buckets {["Sunrise"]} {["Sunrise"]} ∅) /\
  ("Sunrise" ∈ ({["Sunrise"]} : gset string) /\ "Sunrise" ∈ ({["Sunrise"]} : gset string) <->
   exists i j,
     i ∈ [getSunrise; getSunrise_with_date] /\ j ∈ [getSunrise; getSunrise_with_date] /\
     passes_filter i "Sunrise" /\ passes_filter j "Sunrise" /\
     route i = Ok ZeroArg /\ route j = Ok ArgTaking).
Proof.
  assert (Hd : declarations (class_of [getSunrise; getSunrise_with_date]) =
               Ok [getSunrise; getSunrise_with_date]) by reflexivity.
  assert (Hb : classify (class_of [getSunrise; getSunrise_with_date]) =
               Ok (Buckets {["Sunrise"]} {["Sunrise"]} ∅)) by (vm_compute; reflexivity).
  split; [exact Hd|]. split; [exact Hb|].
  exact (name_in_two_buckets _ _ _ "Sunrise" Hd Hb).
Defined.

Lemma Forall_classifiable_remove l1 i l2 :
  Forall classifiable (l1 ++ i :: l2) -> Forall classifiable (l1 ++ l2).
Proof. rewrite !Forall_app, Forall_cons. tauto. Qed.

(** X10: only declarations that pass the pipeline and are routed to the
    argument-taking bucket reach the output.  Taking out of a completed run
    a declaration that was skipped by the pipeline, or routed to the
    zero-argument or the other bucket, leaves a run that completes and
    prints the same lines. *)
Theorem printed_ignores_other_routes (b0 b : buckets) (l1 l2 : list json) (i : json) :
  loop b0 (l1 ++ i :: l2) = Ok b ->
  (forall name, passes_filter i name -> route i <> Ok ArgTaking) ->
  exists b', loop b0 (l1 ++ l2) = Ok b' /\ printed b' = printed b.
Proof.
  intros Hloop Hroute.
  assert (Hok : succeeds (loop b0 (l1 ++ l2))).
  { apply loop_succeeds, (Forall_classifiable_remove l1 i l2), (loop_succeeds _ b0).
    by exists b. }
  destruct Hok as [b' Hloop']. exists b'. split; [done|].
  assert (Heq : zmanim_methods b' = zmanim_methods b).
  { apply set_eq. intros x.
    change (zmanim_methods b') with (get_bucket ArgTaking b').
    change (zmanim_methods b) with (get_bucket ArgTaking b).
    rewrite (loop_spec _ _ _ Hloop), (loop_spec _ _ _ Hloop'). split.
    - intros [? | (j & Hj & Hp & Hr)]; [by left | right].
      exists j. split; [|done].
      apply elem_of_app in Hj as [Hj | Hj]; apply elem_of_app; [by left | right; by right].
    - intros [? | (j & Hj & Hp & Hr)]; [by left | right].
      exists j. split; [|done].
      apply elem_of_app in Hj as [Hj | [-> | Hj]%elem_of_cons]; apply elem_of_app;
        [by left | by destruct (Hroute _ Hp) | by right]. }
  unfold printed. by rewrite Heq.
Qed.

Lemma printed_ignores_other_routes_witness :
  loop empty_buckets
    ([getSunriseOffset] ++ deprecated_getSunrise_with_date :: [getSunrise]) =
    Ok (Buckets {["SunriseOffsetByDegrees"]} {["Sunrise"]} ∅) /\
  filter_decl deprecated_getSunrise_with_date = Ok None /\
  route deprecated_getSunrise_with_date = Ok ArgTaking /\
  exists b',
    loop empty_buckets ([getSunriseOffset] ++ [getSunrise]) = Ok b' /\
    printed b' = printed (Buckets {["SunriseOffsetByDegrees"]} {["Sunrise"]} ∅).
Proof.
  assert (Hl : loop empty_buckets
                 ([getSunriseOffset] ++ deprecated_getSunrise_with_date :: [getSunrise]) =
               Ok (Buckets {["SunriseOffsetByDegrees"]} {["Sunrise"]} ∅))
    by (vm_compute; reflexivity).
  assert (Hskip : filter_decl deprecated_getSunrise_with_date = Ok None) by reflexivity.
  assert (Hr : forall name, passes_filter deprecated_getSunrise_with_date name ->
                            route deprecated_getSunrise_with_date <> Ok ArgTaking).
  { intros name Hp. unfold passes_filter in Hp. rewrite Hskip in Hp. discriminate Hp. }
  split; [exact Hl|]. split; [exact Hskip|]. split; [reflexivity|].
  exact (printed_ignores_other_routes _ _ _ _ _ Hl Hr).
Defined.

(** * Further properties of the emitter *)

(** ** Tables put together *)

Lemma constants_loop_app t1 : forall t2 buffer,
  constants_loop buffer (t1 ++ t2) =
  (do buffer' <- constants_loop buffer t1; constants_loop buffer' t2).
Proof.
  induction t1 as [|c t1 IH]; intros t2 buffer; [done|].
  change ((c :: t1) ++ t2)%list with (c :: (t1 ++ t2))%list.
  destruct (static_declaration c) as [decl|] eqn:Hdecl.
  - by rewrite !(constants_loop_step _ _ _ _ Hdecl), IH.
  - destruct (constants_loop_abort _ Hdecl) as (e & He & _). by rewrite !He.
Qed.

(** X11: records are rendered one by one, each on its own: the text for
    two tables put end to end is the text for the first followed by the
    declarations of the second, and a first table that raises makes the
    whole raise the same exception. *)
Theorem constants_buffer_app (t1 t2 : list Constant.t) :
  (forall o1 o2,
     constants_buffer t1 = Ok o1 -> constants_loop "" t2 = Ok o2 ->
     constants_buffer (t1 ++ t2) = Ok (o1 +:+ o2)) /\
  (forall e, constants_buffer t1 = Raise e -> constants_buffer (t1 ++ t2) = Raise e).
Proof.
  unfold constants_buffer. split.
  - intros o1 o2 H1 (decls & Hdecls & ->)%constants_loop_Ok.
    rewrite constants_loop_app, H1. simpl.
    by apply constants_loop_known.
  - intros e H1. by rewrite constants_loop_app, H1.
Qed.

Lemma constants_buffer_app_witness :
  constants_buffer [Constant.Make "EARTH_RADIUS" TFloat "6356.9"] =
    Ok (prelude +:+ "pub static _EARTH_RADIUS: f64 = 6356.9;" +:+ nl) /\
  constants_loop "" [Constant.Make "YERUSHALMI_LENGTH" TInt "1554"] =
    Ok ("pub static _YERUSHALMI_LENGTH: i64 = 1554;" +:+ nl) /\
  constants_buffer ([Constant.Make "EARTH_RADIUS" TFloat "6356.9"] ++
                    [Constant.Make "YERUSHALMI_LENGTH" TInt "1554"]) =
    Ok ((prelude +:+ "pub static _EARTH_RADIUS: f64 = 6356.9;" +:+ nl) +:+
        ("pub static _YERUSHALMI_LENGTH: i64 = 1554;" +:+ nl)).
Proof.
  assert (H1 : constants_buffer [Constant.Make "EARTH_RADIUS" TFloat "6356.9"] =
               Ok (prelude +:+ "pub static _EARTH_RADIUS: f64 = 6356.9;" +:+ nl))
    by reflexivity.
  assert (H2 : constants_loop "" [Constant.Make "YERUSHALMI_LENGTH" TInt "1554"] =
               Ok ("pub static _YERUSHALMI_LENGTH: i64 = 1554;" +:+ nl))
    by reflexivity.
  split; [exact H1|]. split; [exact H2|].
  exact (proj1 (constants_buffer_app _ _) _ _ H1 H2).
Defined.

(** ** Lines *)

Lemma count_char_app c (a b : string) :
  count_char c (a +:+ b) = count_char c a + count_char c b.
Proof.
  induction a as [|x a IH]; [done|].
  change (String x a +:+ b) with (String x (a +:+ b)).
  cbn [count_char]. rewrite IH. lia.
Qed.

Lemma newlines_app (a b : string) : newlines (a +:+ b) = newlines a + newlines b.
Proof. apply count_char_app. Qed.

Lemma newlines_static_declaration c decl :
  static_declaration c = Some decl ->
  newlines (Constant.name c) = 0 -> newlines (Constant.value c) = 0 ->
  newlines decl = 1.
Proof.
  unfold static_declaration. intros Hdecl Hname Hvalue. revert Hdecl.
  destruct (Constant.type c) as [| | |q [[|]|e]]; intros [= <-];
    rewrite !newlines_app, Hname, Hvalue; reflexivity.
Qed.

(** X12: the constants file has one line per record after the three line
    feeds of the prelude, as long as no name and no value holds a line feed:
    the emitter neither splits a declaration nor joins two. *)
Theorem constants_one_line_per_record (table : list Constant.t) (out : string) :
  constants_buffer table = Ok out ->
  Forall (fun c => newlines (Constant.name c) = 0 /\ newlines (Constant.value c) = 0) table ->
  newlines out = 3 + length table.
Proof.
  intros (decls & Hdecls & ->)%constants_loop_Ok Hclean.
  rewrite newlines_app. change (newlines prelude) with 3. f_equal.
  induction Hdecls as [|c decl table decls Hdecl _ IH]; [done|].
  apply Forall_cons in Hclean as [[Hname Hvalue] Hclean].
  rewrite join_cons, newlines_app, (newlines_static_declaration _ _ Hdecl Hname Hvalue).
  simpl. f_equal. by apply IH.
Qed.

Lemma CONSTANTS_one_line_each :
  Forall (fun c => newlines (Constant.name c) = 0 /\ newlines (Constant.value c) = 0)
    CONSTANTS.
Proof. unfold CONSTANTS. repeat (constructor; [split; reflexivity|]). constructor. Defined.

Lemma constants_one_line_per_record_witness :
  exists out, constants = Ok out /\ newlines out = 3 + 52.
Proof.
  destruct (known_declarations _ CONSTANTS_known) as [decls Hdecls].
  pose proof (constants_loop_known CONSTANTS prelude decls Hdecls) as Hout.
  exists (prelude +:+ join decls). split; [exact Hout|].
  exact (constants_one_line_per_record CONSTANTS _ Hout CONSTANTS_one_line_each).
Defined.

(** ** The enumerations file *)

Section EnumsFile.

Variable pascalcase : string -> string.

(** X13: the layout of the enumerations file.  After the prelude come the
    plain enumerations in the order of [ENUMS], each with its two attribute
    lines, its underscored identifier-cased name and one variant per member
    in member order, the discriminant written in decimal; then the seven
    transliterated enumerations in the order of the calls, each table under
    its own type name: Parsha, JewishHoliday, DayOfWeek, JewishMonth (from
    the table of Hebrew months), YearLengthType, BavliTractate and
    YerushalmiTractate.  Nothing is sorted and nothing is left out. *)
Theorem enums_buffer_layout (ENUMS : list Enum.t) (T : tables) :
  enums_buffer pascalcase ENUMS T =
  prelude +:+
  join (map (fun e =>
    enum_declaration ("_" +:+ pascalcase (Enum.name e))
      (map (fun m => enum_variant (pascalcase (EnumMember.name m)) (EnumMember.value m))
           (Enum.members e))) ENUMS) +:+
  transliterated_enums_to_rust pascalcase "Parsha" (PARSHAS T) +:+
  transliterated_enums_to_rust pascalcase "JewishHoliday" (JEWISH_HOLIDAYS T) +:+
  transliterated_enums_to_rust pascalcase "DayOfWeek" (DAY_OF_WEEKS T) +:+
  transliterated_enums_to_rust pascalcase "JewishMonth" (HEBREW_MONTHS T) +:+
  transliterated_enums_to_rust pascalcase "YearLengthType" (YEAR_LENGTH_TYPES_ T) +:+
  transliterated_enums_to_rust pascalcase "BavliTractate" (BAVLI_TRACTATES T) +:+
  transliterated_enums_to_rust pascalcase "YerushalmiTractate" (YERUSHALMI_TRACTATES T).
Proof.
  unfold enums_buffer. cbv zeta. rewrite fold_plain_enum, !string_app_assoc.
  do 3 f_equal. apply map_ext. intros e. apply plain_enum_shape.
Qed.

End EnumsFile.

(** ** The constants file *)



(** X16: the two commands write to different default files, so running
    [constants] and then [enums] without path arguments leaves both texts on
    disk: [enums] does not touch what [constants] wrote. *)
Theorem constants_then_enums
    (pascalcase : string -> string) (table : list Constant.t) (ENUMS : list Enum.t)
    (T : tables) (w : world) (buffer : string) :
  constants_buffer table = Ok buffer ->
  "constants.rs" ∉ refused w -> "enums.rs" ∉ refused w ->
  exists w1 w2,
    constants_command table None w = (w1, None) /\
    enums_command pascalcase ENUMS T None w1 = (w2, None) /\
    files w2 !! "constants.rs" = Some buffer /\
    files w2 !! "enums.rs" = Some (enums_buffer pascalcase ENUMS T) /\
    stdout w2 = (stdout w ++ [leap_year_warning])%list.
Proof.
  intros Hbuf Hc He. unfold constants_command, enums_command, write_text. cbv zeta.
  rewrite Hbuf. simpl. rewrite decide_False by done.
  eexists _, _. split; [reflexivity|]. simpl. rewrite decide_False by done.
  split; [reflexivity|]. simpl.
  split; [|split; [by rewrite lookup_insert_eq | done]].
  rewrite lookup_insert_ne by discriminate. by rewrite lookup_insert_eq.
Qed.

Lemma constants_then_enums_witness :
  exists buffer w2,
    constants = Ok buffer /\
    (enums_command pascalcase_ENUMS ENUMS sample_tables None
       (constants_command CONSTANTS None empty_world).1).1 = w2 /\
    files w2 !! "constants.rs" = Some buffer /\
    files w2 !! "enums.rs" = Some (enums_buffer pascalcase_ENUMS ENUMS sample_tables).
Proof.
  destruct (known_declarations _ CONSTANTS_known) as [decls Hdecls].
  pose proof (constants_loop_known CONSTANTS prelude decls Hdecls) as Hout.
  destruct (constants_then_enums pascalcase_ENUMS CONSTANTS ENUMS sample_tables
              empty_world _ Hout (not_elem_of_empty _) (not_elem_of_empty _))
    as (w1 & w2 & H1 & H2 & Hc & He & _).
  exists (prelude +:+ join decls), w2.
  split; [exact Hout|]. rewrite H1. simpl. rewrite H2. simpl.
  split; [reflexivity|]. split; [exact Hc | exact He].
Defined.

(** ** The type annotation *)

(** X17: the type written after the name of a static is, for every record,
    the Rust type [type_to_rust] gives for the record's type: [f64], [i64],
    and [DateTime<Utc>] both for [datetime] itself, which [constants]
    renders without calling [type_to_rust], and for a class that compares
    equal to it, which goes through [type_to_rust]. *)
Theorem constants_annotation_is_type_to_rust (table : list Constant.t) (out : string) :
  constants_buffer table = Ok out ->
  exists decls,
    out = prelude +:+ join decls /\
    Forall2 (fun c decl =>
      exists ty rest,
        type_to_rust (Constant.type c) = Ok ty /\
        decl = "pub static _" +:+ Constant.name c +:+ ": " +:+ ty +:+ " = " +:+ rest)
      table decls.
Proof.
  intros (decls & Hdecls & ->)%constants_loop_Ok.
  exists decls. split; [done|].
  eapply Forall2_impl; [exact Hdecls|]. intros c decl. cbn beta.
  unfold static_declaration.
  destruct (Constant.type c) as [| | |q [[|]|e]]; intros [= <-]; eexists _, _; (split; [reflexivity|]);
    reflexivity.
Qed.

Lemma constants_annotation_is_type_to_rust_witness :
  constants_buffer
    [Constant.Make "BAVLI_DAF_YOMI_START_DAY" TDatetime "-1461369600000";
     Constant.Make "START" (TClass "Instant" (Ok true)) "0"] =
    Ok (prelude +:+
        "pub static _BAVLI_DAF_YOMI_START_DAY: DateTime<Utc> = DateTime::from_timestamp_millis(-1461369600000).unwrap();" +:+ nl +:+
        "pub static _START: DateTime<Utc> = 0;" +:+ nl) /\
  exists decls,
    prelude +:+
    "pub static _BAVLI_DAF_YOMI_START_DAY: DateTime<Utc> = DateTime::from_timestamp_millis(-1461369600000).unwrap();" +:+ nl +:+
    "pub static _START: DateTime<Utc> = 0;" +:+ nl = prelude +:+ join decls /\
    Forall2 (fun c decl =>
      exists ty rest,
        type_to_rust (Constant.type c) = Ok ty /\
        decl = "pub static _" +:+ Constant.name c +:+ ": " +:+ ty +:+ " = " +:+ rest)
      [Constant.Make "BAVLI_DAF_YOMI_START_DAY" TDatetime "-1461369600000";
       Constant.Make "START" (TClass "Instant" (Ok true)) "0"] decls.
Proof.
  assert (H : constants_buffer
                [Constant.Make "BAVLI_DAF_YOMI_START_DAY" TDatetime "-1461369600000";
                 Constant.Make "START" (TClass "Instant" (Ok true)) "0"] =
              Ok (prelude +:+
                  "pub static _BAVLI_DAF_YOMI_START_DAY: DateTime<Utc> = DateTime::from_timestamp_millis(-1461369600000).unwrap();" +:+ nl +:+
                  "pub static _START: DateTime<Utc> = 0;" +:+ nl))
    by reflexivity.
  split; [exact H|].
  exact (constants_annotation_is_type_to_rust _ _ H).
Defined.

(** * Standard output of the classifier *)

Lemma length_sorted (s : gset string) : length (sorted s) = size s.
Proof. unfold sorted. by rewrite merge_sort_Permutation. Qed.

Lemma newlines_stdout_text (lines : list string) :
  Forall (fun line => newlines line = 0) lines ->
  newlines (stdout_text lines) = length lines.
Proof.
  unfold stdout_text. induction 1 as [|line lines Hline _ IH]; [done|].
  cbn [map]. rewrite join_cons, !newlines_app, Hline, IH. reflexivity.
Qed.

Lemma newlines_string_drop n : forall s, newlines (string_drop n s) <= newlines s.
Proof.
  induction n as [|n IH]; intros s; [done|].
  destruct s as [|c s]; [done|]. simpl string_drop.
  etrans; [apply IH|]. unfold newlines. cbn [count_char]. lia.
Qed.

Lemma newlines_strip_get s : newlines s = 0 -> newlines (strip_get s) = 0.
Proof.
  intros Hs. unfold strip_get. destruct (String.prefix "get" s); [|done].
  pose proof (newlines_string_drop 3 s). lia.
Qed.

(** X3: when no declared method name holds a line feed, what a completed
    run writes on standard output has exactly two lines more than the
    argument-taking bucket has distinct names (the opening line, one line
    per name, the closing line), and never more than two lines more than
    the class has member declarations. *)
Theorem run_line_count (data : json) (decls : list json) (out : list string) :
  declarations data = Ok decls -> run data = Ok out ->
  (forall i n, i ∈ decls -> declared_name i n -> newlines n = 0) ->
  exists b,
    classify data = Ok b /\
    newlines (stdout_text out) = 2 + size (zmanim_methods b) /\
    newlines (stdout_text out) <= 2 + length decls.
Proof.
  intros Hd Hrun Hnames. unfold run in Hrun. step Hrun as b Hb. injection Hrun as <-.
  pose proof (classify_loop _ _ _ Hd Hb) as Hloop.
  exists b. split; [done|].
  assert (Hlines : Forall (fun line => newlines line = 0) (printed b)).
  { unfold printed. cbn [app]. apply Forall_cons. split; [reflexivity|].
    apply Forall_app. split; [|by repeat constructor].
    apply Forall_forall. intros line (x & -> & Hx)%list_elem_of_fmap.
    apply elem_of_sorted in Hx.
    change (zmanim_methods b) with (get_bucket ArgTaking b) in Hx.
    apply (loop_spec _ _ _ Hloop) in Hx as [Hx | (i & Hi & Hp & _)];
      [by destruct (empty_buckets_empty _ _ Hx)|].
    destruct (passes_filter_inv _ _ Hp) as (s & _ & _ & Hs & _ & -> & _).
    unfold variant_line. rewrite !newlines_app.
    rewrite newlines_strip_get; [reflexivity|].
    destruct Hs as [Hs | ->]; [by apply (Hnames i) | reflexivity]. }
  rewrite (newlines_stdout_text _ Hlines).
  assert (Hlen : length (printed b) = 2 + size (zmanim_methods b)).
  { unfold printed. cbn [app]. rewrite length_cons, length_app, length_map, length_sorted.
    simpl. lia. }
  split; [done|]. rewrite Hlen.
  assert (Hbound : names_held b <= length decls) by apply (loop_names_held _ _ _ Hloop).
  unfold names_held in Hbound. lia.
Qed.

Lemma run_line_count_witness :
  declarations (class_of [getSunrise; getSunriseOffset; getSunrise_with_date]) =
    Ok [getSunrise; getSunriseOffset; getSunrise_with_date] /\
  run (class_of [getSunrise; getSunriseOffset; getSunrise_with_date]) =
    Ok ["pub enum Calculations {"; "    Sunrise,"; "    SunriseOffsetByDegrees,"; "}"] /\
  exists b,
    classify (class_of [getSunrise; getSunriseOffset; getSunrise_with_date]) = Ok b /\
    newlines (stdout_text ["pub enum Calculations {"; "    Sunrise,";
                           "    SunriseOffsetByDegrees,"; "}"]) =
      2 + size (zmanim_methods b) /\
    newlines (stdout_text ["pub enum Calculations {"; "    Sunrise,";
                           "    SunriseOffsetByDegrees,"; "}"]) <= 2 + 3.
Proof.
  assert (Hd : declarations (class_of [getSunrise; getSunriseOffset; getSunrise_with_date]) =
               Ok [getSunrise; getSunriseOffset; getSunrise_with_date]) by reflexivity.
  assert (Hr : run (class_of [getSunrise; getSunriseOffset; getSunrise_with_date]) =
               Ok ["pub enum Calculations {"; "    Sunrise,";
                   "    SunriseOffsetByDegrees,"; "}"])
    by (vm_compute; reflexivity).
  split; [exact Hd|]. split; [exact Hr|].
  refine (run_line_count _ _ _ Hd Hr _).
  intros i n Hi (nm & Hnm & Hid).
  apply list_elem_of_In in Hi. simpl in Hi.
  destruct Hi as [<- | [<- | [<- | []]]];
    simpl in Hnm; injection Hnm as <-; simpl in Hid; injection Hid as <-; reflexivity.
Defined.
